(** * Orders service: status life cycle, authorization and listing

    A shallow embedding of [service_orders/main.py]: the transition table,
    the request models with their field validators, and the five handlers
    over an explicit model of the [orders] table and of the database
    connection (pending and committed state, commit, rollback). *)

From Stdlib Require Import ZArith Lia.
From Stdlib Require Import Floats.SpecFloat.
From Stdlib Require Import Ascii String.
From stdpp Require Import base option list sorting gmap strings fin_maps.

Open Scope string_scope.
Open Scope list_scope.

(** ** Values *)

(** The 128-bit integer of a [uuid.UUID]; two UUIDs are equal when their
    integers are. *)
Abbreviation UUID := N (only parsing).

(** A Python [float] is an IEEE 754 binary64 value. *)
Abbreviation float := spec_float (only parsing).

(** [class OrderStatus] *)
Module OrderStatus.
Definition CREATED : string := "created".
Definition IN_PROGRESS : string := "in_progress".
Definition COMPLETED : string := "completed".
Definition CANCELLED : string := "cancelled".
End OrderStatus.

Definition ORDER_STATUSES : list string :=
  ["created"; "in_progress"; "completed"; "cancelled"].

(** The module-level dict, from a status to the statuses it may move to. *)
Definition VALID_STATUS_TRANSITIONS : gmap string (list string) :=
  <["created" := ["in_progress"; "cancelled"]]>
  (<["in_progress" := ["completed"; "cancelled"]]>
  (<["completed" := []]>
  (<["cancelled" := []]> ∅))).

(** [dict.get(key, default)] *)
Definition dict_get {V} (d : gmap string V) (key : string) (default : V) : V :=
  match d !! key with
  | Some v => v
  | None => default
  end.

(** [x in xs] on a list of [str] *)
Definition py_in (x : string) (xs : list string) : bool :=
  bool_decide (x ∈ xs).

Definition is_valid_status_transition (current_status new_status : string) : bool :=
  let allowed_transitions := dict_get VALID_STATUS_TRANSITIONS current_status [] in
  py_in new_status allowed_transitions.

(** ** Request models *)

Record OrderItem := {
  product_id : UUID;
  product_name : string;
  quantity : Z;
  price : float
}.

Record OrderCreate := {
  oc_items : list OrderItem;
  total_amount : float
}.

Record OrderUpdate := {
  ou_status : option string
}.

(** The decoded token: [current_user.get('user_id')] after [uuid.UUID(...)],
    which raises when the entry is missing or is not the text of a UUID
    ([None] here), and [current_user.get('role')]. *)
Record TokenPayload := {
  claim_user_id : option UUID;
  claim_role : option string
}.

(** ** The orders table *)

(** One row, columns 1 to 6 of [SELECT * FROM orders]; column 0, the id, is
    the key of the table. The [user_id] column holds what [create_order]
    wrote there, the text of a UUID, so that [uuid.UUID(order[1])] is that
    UUID. *)
Record OrderRow := {
  o_user_id : UUID;
  o_items : list OrderItem;
  o_total_amount : float;
  o_status : string;
  o_created_at : Z;
  o_updated_at : Z
}.

(** The table, keyed by order id. *)
Abbreviation Store := (gmap UUID OrderRow) (only parsing).

(** A fetched row with its id in front, as [cur.fetchone()] returns it. *)
Abbreviation Order := (UUID * OrderRow)%type (only parsing).

(** ** Responses *)

Inductive PyException :=
  | UUID_ValueError
  | UniqueViolation (id : UUID)
  | InvalidRowCount
  | InvalidTextRepresentation
  | NulInParameter
  | NumericValueOutOfRange.

(** The pieces of an f-string: literal text, a replacement field holding a
    [str], one holding a list of [str], one holding [str(e)]. *)
Inductive Fragment :=
  | Text (s : string)
  | Field (s : string)
  | FieldList (l : list string)
  | FieldExn (e : PyException).

Record ErrorInfo := {
  code : string;
  message : list Fragment
}.

Inductive Data :=
  | DataOrderId (order_id : UUID)
  | DataMessage (msg : string)
  | DataOrders (orders : list Order) (total : Z) (page size : Z).

Record BaseResponse := {
  success : bool;
  data : option Data;
  error : option ErrorInfo
}.

Definition respond_ok (d : Data) : BaseResponse :=
  {| success := true; data := Some d; error := None |}.

Definition respond_error (c : string) (m : list Fragment) : BaseResponse :=
  {| success := false; data := None; error := Some {| code := c; message := m |} |}.

(** ** The connection *)

(** psycopg2 runs the statements of a connection in one transaction:
    [pending] is what the statements see and write, [committed] what other
    requests see and what stays when the connection is closed. *)
Record Conn := {
  committed : Store;
  pending : Store
}.

Inductive Outcome (A : Type) :=
  | Returned (a : A)
  | Raised (e : PyException).
Arguments Returned {A} a.
Arguments Raised {A} e.

(** A piece of a handler's [try] block. *)
Definition Db (A : Type) : Type := Conn -> Outcome A * Conn.

Definition ret {A} (a : A) : Db A := fun c => (Returned a, c).
Definition raise {A} (e : PyException) : Db A := fun c => (Raised e, c).
Definition bind {A B} (m : Db A) (k : A -> Db B) : Db B :=
  fun c =>
    match m c with
    | (Returned a, c') => k a c'
    | (Raised e, c') => (Raised e, c')
    end.

Notation "'let*' x := m 'in' k" := (bind m (fun x => k))
  (at level 10, x pattern, m at level 100, k at level 200).
Notation "m ;; k" := (bind m (fun _ => k))
  (at level 100, k at level 200, right associativity).

Definition get_db (db : Store) : Conn := {| committed := db; pending := db |}.

Definition commit : Db unit :=
  fun c => (Returned tt, {| committed := pending c; pending := pending c |}).

Definition rollback (c : Conn) : Conn :=
  {| committed := committed c; pending := committed c |}.

(** [conn.close()]: what was not committed is lost. *)
Definition close (c : Conn) : Store := committed c.

(** [uuid.UUID(current_user.get('user_id'))] *)
Definition current_user_uuid (current_user : TokenPayload) : Db UUID :=
  match claim_user_id current_user with
  | Some u => ret u
  | None => raise UUID_ValueError
  end.

(** [SELECT * FROM orders WHERE id = %s] followed by [fetchone()] *)
Definition select_order (order_id : UUID) : Db (option Order) :=
  fun c => (Returned (pair order_id <$> pending c !! order_id), c).

Definition set_status (new_status : string) (now : Z) (r : OrderRow) : OrderRow :=
  {| o_user_id := o_user_id r; o_items := o_items r;
     o_total_amount := o_total_amount r; o_status := new_status;
     o_created_at := o_created_at r; o_updated_at := now |}.

(** [UPDATE orders SET status = %s, updated_at = CURRENT_TIMESTAMP WHERE id = %s] *)
Definition update_status (new_status : string) (order_id : UUID) (now : Z) : Db unit :=
  fun c => (Returned tt,
            {| committed := committed c;
               pending := alter (set_status new_status now) order_id (pending c) |}).

(** A [float] that [json.dumps] writes as a number: for NaN and the
    infinities it writes the tokens [NaN], [Infinity] and [-Infinity], which
    are not JSON. *)
Definition is_finite (v : float) : bool :=
  match v with
  | S754_zero _ | S754_finite _ _ _ => true
  | S754_infinity _ | S754_nan => false
  end.

(** Modelled from the spec: the definition of the [orders] table is not
    part of the sources; the store is keyed by order id, so that
    [INSERT INTO orders (id, user_id, items, total_amount, status)] is
    refused for an id that is already a key, and [created_at] and
    [updated_at], absent from the statement, are the time of the insert.
    The [items] column holds JSON ([get_order] takes it back as a list), so
    the text of the items is refused when a price in it is not a number.
    What else the table refuses is not in the sources: below, a success of
    the insert is a case or a hypothesis, never a conclusion on its own. *)
Definition insert_order (order_id user_id : UUID) (items : list OrderItem)
    (total : float) (status : string) (now : Z) : Db unit :=
  fun c =>
    if existsb (fun item => negb (is_finite (price item))) items
    then (Raised InvalidTextRepresentation, c)
    else
      match pending c !! order_id with
      | Some _ => (Raised (UniqueViolation order_id), c)
      | None =>
          (Returned tt,
           {| committed := committed c;
              pending := <[order_id :=
                {| o_user_id := user_id; o_items := items; o_total_amount := total;
                   o_status := status; o_created_at := now; o_updated_at := now |}]>
                (pending c) |})
      end.

(** The shape of every handler: [try] the body on a new connection,
    [except Exception] answer with [on_error] (after [conn.rollback()] where
    the handler has one), [finally] close. *)
Definition handler (body : Db BaseResponse) (on_error : PyException -> BaseResponse)
    (db : Store) : BaseResponse * Store :=
  match body (get_db db) with
  | (Returned r, c) => (r, close c)
  | (Raised e, c) => (on_error e, close (rollback c))
  end.

(** The value of an optional [str] when Python takes it as true: neither
    [None] nor the empty string. *)
Definition truthy (o : option string) : option string :=
  match o with
  | Some s => if bool_decide (s = "") then None else Some s
  | None => None
  end.

(** ** [PUT /v1/orders/{order_id}] *)

Definition update_order_body (order_id : UUID) (order_update : OrderUpdate)
    (current_user : TokenPayload) (now : Z) : Db BaseResponse :=
  let* order := select_order order_id in
  match order with
  | None => ret (respond_error "ORDER_NOT_FOUND" [Text "Order not found"])
  | Some order =>
      let order_user_id := o_user_id order.2 in
      let* current_user_id := current_user_uuid current_user in
      let user_role := claim_role current_user in
      if bool_decide (order_user_id ≠ current_user_id)
         && bool_decide (user_role ≠ Some "admin")
      then ret (respond_error "ACCESS_DENIED" [Text "Access to update this order denied"])
      else
        match truthy (ou_status order_update) with
        | Some new_status =>
            if negb (py_in new_status ORDER_STATUSES)
            then ret (respond_error "INVALID_STATUS"
                        [Text "Invalid status. Allowed: "; FieldList ORDER_STATUSES])
            else
              let current_status := o_status order.2 in
              if negb (is_valid_status_transition current_status new_status)
              then ret (respond_error "INVALID_STATUS_TRANSITION"
                          [Text "Cannot change status from '"; Field current_status;
                           Text "' to '"; Field new_status; Text "'. ";
                           Text "Allowed transitions: ";
                           FieldList (dict_get VALID_STATUS_TRANSITIONS current_status [])])
              else
                update_status new_status order_id now ;;
                commit ;;
                ret (respond_ok (DataMessage "Order updated successfully"))
        | None => ret (respond_ok (DataMessage "Order updated successfully"))
        end
  end.

Definition update_order (order_id : UUID) (order_update : OrderUpdate)
    (current_user : TokenPayload) (now : Z) (db : Store) : BaseResponse * Store :=
  handler (update_order_body order_id order_update current_user now)
          (fun _ => respond_error "DATABASE_ERROR" [Text "Failed to update order"]) db.

(** ** [DELETE /v1/orders/{order_id}] *)

Definition cancel_order_body (order_id : UUID) (current_user : TokenPayload)
    (now : Z) : Db BaseResponse :=
  let* order := select_order order_id in
  match order with
  | None => ret (respond_error "ORDER_NOT_FOUND" [Text "Order not found"])
  | Some order =>
      let order_user_id := o_user_id order.2 in
      let* current_user_id := current_user_uuid current_user in
      if bool_decide (order_user_id ≠ current_user_id)
      then ret (respond_error "ACCESS_DENIED" [Text "Only order owner can cancel the order"])
      else
        let current_status := o_status order.2 in
        if negb (is_valid_status_transition current_status OrderStatus.CANCELLED)
        then ret (respond_error "CANNOT_CANCEL"
                    [Text "Cannot cancel order with status '"; Field current_status;
                     Text "'. ";
                     Text "Order can only be cancelled from 'created' or 'in_progress' status."])
        else
          update_status OrderStatus.CANCELLED order_id now ;;
          commit ;;
          ret (respond_ok (DataMessage "Order cancelled successfully"))
  end.

Definition cancel_order (order_id : UUID) (current_user : TokenPayload)
    (now : Z) (db : Store) : BaseResponse * Store :=
  handler (cancel_order_body order_id current_user now)
          (fun _ => respond_error "DATABASE_ERROR" [Text "Failed to cancel order"]) db.

(** ** [POST /v1/orders] *)

(** The field validators: [Some] is the message of the [ValueError] raised,
    [None] means the value is returned as it came. Comparing a [float] with
    the integer 0 compares it with 0.0. *)
Definition validate_quantity (v : Z) : option string :=
  if (v <=? 0)%Z then Some "Quantity must be positive" else None.

Definition validate_price (v : float) : option string :=
  if SFltb v (S754_zero false) then Some "Price cannot be negative" else None.

Definition validate_total_amount (v : float) : option string :=
  if SFleb v (S754_zero false) then Some "Total amount must be positive" else None.

(** What the framework answers (HTTP 422) when a request does not pass the
    declared validation: the handler is not entered. *)
Inductive ValidationError :=
  | ValueError (loc : string) (msg : string)
  | GreaterThanEqual (loc : string) (ge : Z)
  | LessThanEqual (loc : string) (le : Z).

Inductive HttpResponse :=
  | RequestValidationError (errors : list ValidationError)
  | Json (r : BaseResponse).

Definition errors_of (loc : string) (e : option string) : list ValidationError :=
  match e with
  | Some msg => [ValueError loc msg]
  | None => []
  end.

Definition OrderItem_errors (item : OrderItem) : list ValidationError :=
  errors_of "quantity" (validate_quantity (quantity item))
  ++ errors_of "price" (validate_price (price item)).

(** Validation of the body against [OrderCreate]: every field of every item,
    then [total_amount]; the list of items itself carries no validator. *)
Definition OrderCreate_errors (order_data : OrderCreate) : list ValidationError :=
  concat (OrderItem_errors <$> oc_items order_data)
  ++ errors_of "total_amount" (validate_total_amount (total_amount order_data)).

Definition validate_user_exists (user_id : UUID) : bool := true.

(** [uuid4] is the value [uuid.uuid4()] returns in this call. *)
Definition create_order_body (order_data : OrderCreate) (current_user : TokenPayload)
    (uuid4 : UUID) (now : Z) : Db BaseResponse :=
  let* user_id := current_user_uuid current_user in
  if negb (validate_user_exists user_id)
  then ret (respond_error "USER_NOT_FOUND" [Text "User not found"])
  else
    let order_id := uuid4 in
    let items_for_json :=
      (fun item => {| product_id := product_id item; product_name := product_name item;
                      quantity := quantity item; price := price item |})
        <$> oc_items order_data in
    insert_order order_id user_id items_for_json (total_amount order_data)
                 OrderStatus.CREATED now ;;
    commit ;;
    ret (respond_ok (DataOrderId order_id)).

Definition create_order (order_data : OrderCreate) (current_user : TokenPayload)
    (uuid4 : UUID) (now : Z) (db : Store) : BaseResponse * Store :=
  handler (create_order_body order_data current_user uuid4 now)
          (fun e => respond_error "DATABASE_ERROR" [Text "Order creation failed: "; FieldExn e]) db.

(** The route: the body is validated, then the handler runs. *)
Definition POST_v1_orders (body : OrderCreate) (current_user : TokenPayload)
    (uuid4 : UUID) (now : Z) (db : Store) : HttpResponse * Store :=
  match OrderCreate_errors body with
  | [] => let '(r, db') := create_order body current_user uuid4 now db in (Json r, db')
  | errors => (RequestValidationError errors, db)
  end.

(** ** [GET /v1/orders] *)

(** A condition of the [WHERE] clause with its parameter. *)
Inductive Cond :=
  | UserIdIs (user_id : UUID)
  | StatusIs (status : string).

Definition satisfies (o : Order) (c : Cond) : bool :=
  match c with
  | UserIdIs u => bool_decide (o_user_id o.2 = u)
  | StatusIs s => bool_decide (o_status o.2 = s)
  end.

Definition where_ (conds : list Cond) (o : Order) : bool :=
  forallb (satisfies o) conds.

Definition scan (conds : list Cond) (db : Store) : list Order :=
  filter (fun o => where_ conds o) (map_to_list db).

(** [ORDER BY created_at DESC]. SQL leaves the order of rows with equal
    [created_at] open; the sort below is one such order. *)
Definition newer_first (a b : Order) : Prop :=
  (o_created_at b.2 <= o_created_at a.2)%Z.

#[global] Instance newer_first_dec a b : Decision (newer_first a b).
Proof. unfold newer_first. apply _. Defined.

Definition order_by_created_at_desc (rows : list Order) : list Order :=
  merge_sort newer_first rows.

(** [SELECT * FROM orders ... ORDER BY created_at DESC LIMIT %s OFFSET %s]
    and [fetchall()], as the text of the query reads: a negative [LIMIT] or
    [OFFSET] is an error. What psycopg2 and PostgreSQL refuse of the
    parameters before the query runs is in [Postgres.select_orders] below. *)
Definition select_orders (conds : list Cond) (limit offset : Z) : Db (list Order) :=
  fun c =>
    if ((limit <? 0) || (offset <? 0))%Z
    then (Raised InvalidRowCount, c)
    else (Returned (take (Z.to_nat limit)
                      (drop (Z.to_nat offset)
                         (order_by_created_at_desc (scan conds (pending c))))), c).

(** [SELECT COUNT( * ) FROM orders ...] and [fetchone()[0]] *)
Definition count_orders (conds : list Cond) : Db Z :=
  fun c => (Returned (Z.of_nat (length (scan conds (pending c)))), c).

Definition get_user_orders_body (current_user : TokenPayload) (page size : Z)
    (status : option string) : Db BaseResponse :=
  let* user_id := current_user_uuid current_user in
  let user_role := claim_role current_user in
  let offset := ((page - 1) * size)%Z in
  let conds :=
    if bool_decide (user_role = Some "admin") then [] else [UserIdIs user_id] in
  let conds :=
    match truthy status with
    | Some status => conds ++ [StatusIs status]
    | None => conds
    end in
  let* orders := select_orders conds size offset in
  let* total := count_orders conds in
  let orders_data := (fun order : Order => (order.1, order.2)) <$> orders in
  ret (respond_ok (DataOrders orders_data total page size)).

Definition get_user_orders (current_user : TokenPayload) (page size : Z)
    (status : option string) (db : Store) : BaseResponse * Store :=
  handler (get_user_orders_body current_user page size status)
          (fun _ => respond_error "DATABASE_ERROR" [Text "Failed to get orders"]) db.

(** A query parameter declared [Query(default, ge=..., le=...)]: without a
    value it is the default, with one the bounds are checked. *)
Definition Query (loc : string) (default : Z) (ge le : option Z) (raw : option Z)
    : list ValidationError + Z :=
  match raw with
  | None => inr default
  | Some v =>
      match ge, le with
      | Some lo, _ =>
          if (v <? lo)%Z then inl [GreaterThanEqual loc lo]
          else match le with
               | Some hi => if (hi <? v)%Z then inl [LessThanEqual loc hi] else inr v
               | None => inr v
               end
      | None, Some hi => if (hi <? v)%Z then inl [LessThanEqual loc hi] else inr v
      | None, None => inr v
      end
  end.

Definition errors_in {A} (r : list ValidationError + A) : list ValidationError :=
  match r with
  | inl errors => errors
  | inr _ => []
  end.

(** The route: [page: int = Query(1, ge=1)], [size: int = Query(10, ge=1,
    le=100)], [status: Optional[str] = Query(None)]. *)
Definition GET_v1_orders (current_user : TokenPayload) (page size : option Z)
    (status : option string) (db : Store) : HttpResponse * Store :=
  match Query "page" 1 (Some 1%Z) None page,
        Query "size" 10 (Some 1%Z) (Some 100%Z) size with
  | inr page, inr size =>
      let '(r, db') := get_user_orders current_user page size status db in (Json r, db')
  | p, s => (RequestValidationError (errors_in p ++ errors_in s), db)
  end.

(** ** [GET /v1/orders] on PostgreSQL *)

(** A [str] that holds the character of code 0. *)
Fixpoint has_nul (s : string) : bool :=
  match s with
  | EmptyString => false
  | String c s => bool_decide (c = "000"%char) || has_nul s
  end.

(** [bigint], the type of [LIMIT], [OFFSET] and [COUNT( * )]. *)
Definition BIGINT_MAX : Z := 9223372036854775807.

Definition in_bigint (v : Z) : bool := ((- BIGINT_MAX - 1 <=? v) && (v <=? BIGINT_MAX))%Z.

(** psycopg2 passes no [str] that holds NUL; the user id is passed as the
    text of a UUID, which holds none. *)
Definition refused_parameter (c : Cond) : bool :=
  match c with
  | UserIdIs _ => false
  | StatusIs s => has_nul s
  end.

Module Postgres.

(** [cur.execute(query, params + [size, offset])]: psycopg2 raises on a
    parameter it cannot pass, PostgreSQL on a [LIMIT] or [OFFSET] that is
    not a [bigint]; otherwise the query runs. *)
Definition select_orders (conds : list Cond) (limit offset : Z) : Db (list Order) :=
  fun c =>
    if existsb refused_parameter conds then (Raised NulInParameter, c)
    else if negb (in_bigint limit && in_bigint offset)
         then (Raised NumericValueOutOfRange, c)
         else select_orders conds limit offset c.

(** [cur.execute(count_query, params)] *)
Definition count_orders (conds : list Cond) : Db Z :=
  fun c =>
    if existsb refused_parameter conds then (Raised NulInParameter, c)
    else count_orders conds c.

Definition get_user_orders_body (current_user : TokenPayload) (page size : Z)
    (status : option string) : Db BaseResponse :=
  let* user_id := current_user_uuid current_user in
  let user_role := claim_role current_user in
  let offset := ((page - 1) * size)%Z in
  let conds :=
    if bool_decide (user_role = Some "admin") then [] else [UserIdIs user_id] in
  let conds :=
    match truthy status with
    | Some status => conds ++ [StatusIs status]
    | None => conds
    end in
  let* orders := select_orders conds size offset in
  let* total := count_orders conds in
  let orders_data := (fun order : Order => (order.1, order.2)) <$> orders in
  ret (respond_ok (DataOrders orders_data total page size)).

Definition get_user_orders (current_user : TokenPayload) (page size : Z)
    (status : option string) (db : Store) : BaseResponse * Store :=
  handler (get_user_orders_body current_user page size status)
          (fun _ => respond_error "DATABASE_ERROR" [Text "Failed to get orders"]) db.

End Postgres.

(** The number of rows of the table, which PostgreSQL counts in a [bigint]. *)
Definition row_count (db : Store) : Z := Z.of_nat (size db).

(** What the filter of a listing must be for psycopg2 to pass it. *)
Definition passable (status : option string) : bool :=
  match truthy status with
  | Some s => negb (has_nul s)
  | None => true
  end.

(** ** The body of [PUT /v1/orders/{order_id}] *)

(** The [status] member of the JSON body. *)
Inductive JsonMember :=
  | Absent
  | Null
  | Str (s : string).

(** [status: Optional[str] = None] *)
Definition OrderUpdate_of_json (status : JsonMember) : OrderUpdate :=
  match status with
  | Absent => {| ou_status := None |}
  | Null => {| ou_status := None |}
  | Str s => {| ou_status := Some s |}
  end.

Definition PUT_v1_orders (order_id : UUID) (status : JsonMember)
    (current_user : TokenPayload) (now : Z) (db : Store) : HttpResponse * Store :=
  let '(r, db') := update_order order_id (OrderUpdate_of_json status) current_user now db in
  (Json r, db').

(** ** Notions of the specification *)

(** The table as the specification draws it: the pairs [from -> to] of its
    four lines, the last two of which are empty. *)
Definition transition_table (from to : string) : Prop :=
  (from = "created" ∧ (to = "in_progress" ∨ to = "cancelled")) ∨
  (from = "in_progress" ∧ (to = "completed" ∨ to = "cancelled")).

Definition terminal (s : string) : Prop := s = "completed" ∨ s = "cancelled".

(** The row that [create_order] inserts. *)
Definition new_order (user_id : N) (order_data : OrderCreate) (now : Z) : OrderRow :=
  {| o_user_id := user_id; o_items := oc_items order_data;
     o_total_amount := total_amount order_data; o_status := "created";
     o_created_at := now; o_updated_at := now |}.

(** The [WHERE] clause that [get_user_orders] builds. *)
Definition listing_conds (current_user : TokenPayload) (uid : N)
    (status : option string) : list Cond :=
  (if bool_decide (claim_role current_user = Some "admin") then [] else [UserIdIs uid])
  ++ match truthy status with
     | Some s => [StatusIs s]
     | None => []
     end.

(** The filtered set in the specification's words: a caller who is not an
    admin sees their own orders, an admin all of them, in both cases only
    those with the requested status when one is given. *)
Definition visible (current_user : TokenPayload) (uid : N) (status : option string)
    (o : N * OrderRow) : Prop :=
  (claim_role current_user = Some "admin" ∨ o_user_id o.2 = uid)
  ∧ (status = None ∨ status = Some "" ∨ status = Some (o_status o.2)).

(** The orders of a response, none when it is not a listing. *)
Definition returned_orders (r : BaseResponse) : list (N * OrderRow) :=
  match data r with
  | Some (DataOrders orders _ _ _) => orders
  | _ => []
  end.

(** ** The service as a state machine *)

Inductive Request :=
  | CreateOrder (body : OrderCreate) (uuid4 : N)
  | ListOrders (page size : option Z) (status : option string)
  | UpdateOrderStatus (order_id : N) (status : JsonMember)
  | CancelOrder (order_id : N).

(** One authenticated request, served at time [now]. *)
Definition serve (current_user : TokenPayload) (now : Z) (request : Request)
    (db : gmap N OrderRow) : HttpResponse * gmap N OrderRow :=
  match request with
  | CreateOrder body uuid4 => POST_v1_orders body current_user uuid4 now db
  | ListOrders page size status => GET_v1_orders current_user page size status db
  | UpdateOrderStatus order_id status => PUT_v1_orders order_id status current_user now db
  | CancelOrder order_id =>
      let '(r, db') := cancel_order order_id current_user now db in (Json r, db')
  end.

Fixpoint serve_all (calls : list (TokenPayload * Z * Request))
    (db : gmap N OrderRow) : gmap N OrderRow :=
  match calls with
  | [] => db
  | (current_user, now, request) :: calls =>
      serve_all calls (serve current_user now request db).2
  end.

(** ** Sample data *)

Definition alice : TokenPayload := {| claim_user_id := Some 7%N; claim_role := Some "client" |}.
Definition bob : TokenPayload := {| claim_user_id := Some 8%N; claim_role := Some "client" |}.
Definition root : TokenPayload := {| claim_user_id := Some 1%N; claim_role := Some "admin" |}.

Definition sample_order (status : string) (created : Z) : OrderRow :=
  {| o_user_id := 7%N; o_items := [];
     o_total_amount := S754_finite false 5629499534213120 (-48);
     o_status := status; o_created_at := created; o_updated_at := created |}.

Definition sample_store : gmap N OrderRow :=
  <[10%N := sample_order "created" 100]>
  (<[11%N := sample_order "in_progress" 101]>
  (<[12%N := sample_order "completed" 102]>
  (<[13%N := sample_order "cancelled" 103]> ∅))).

Definition two_widgets : OrderCreate :=
  {| oc_items := [ {| product_id := 99%N; product_name := "widget"; quantity := 2;
                      price := S754_finite false 5629499534213120 (-49) |} ];
     total_amount := S754_finite false 5629499534213120 (-48) |}.

(** ** [GET /v1/orders/{order_id}] *)

(** [class OrderResponse] *)
Record OrderResponse := {
  r_id : UUID;
  r_user_id : UUID;
  r_items : list OrderItem;
  r_total_amount : float;
  r_status : string;
  r_created_at : Z;
  r_updated_at : Z
}.

(** The [BaseResponse] of [get_order]: its [data], when there is one, is the
    dict with the single entry [order]. *)
Record OrderReply := {
  reply_success : bool;
  reply_order : option OrderResponse;
  reply_error : option ErrorInfo
}.

Definition order_found (order_response : OrderResponse) : OrderReply :=
  {| reply_success := true; reply_order := Some order_response; reply_error := None |}.

Definition order_error (c : string) (m : list Fragment) : OrderReply :=
  {| reply_success := false; reply_order := None;
     reply_error := Some {| code := c; message := m |} |}.

(** The columns hold values of the declared types (the [items] column comes
    back as the decoded list), so that building the [OrderResponse] does not
    raise. *)
Definition get_order_body (order_id : UUID) (current_user : TokenPayload)
    : Db OrderReply :=
  let* order := select_order order_id in
  match order with
  | None => ret (order_error "ORDER_NOT_FOUND" [Text "Order not found"])
  | Some order =>
      let order_user_id := o_user_id order.2 in
      let* current_user_id := current_user_uuid current_user in
      let user_role := claim_role current_user in
      if bool_decide (order_user_id ≠ current_user_id)
         && bool_decide (user_role ≠ Some "admin")
      then ret (order_error "ACCESS_DENIED" [Text "Access to this order denied"])
      else
        let items_data := o_items order.2 in
        let order_response :=
          {| r_id := order.1; r_user_id := order_user_id; r_items := items_data;
             r_total_amount := o_total_amount order.2; r_status := o_status order.2;
             r_created_at := o_created_at order.2;
             r_updated_at := o_updated_at order.2 |} in
        ret (order_found order_response)
  end.

(** This handler's [except] has no rollback; it closes the connection. *)
Definition get_order (order_id : UUID) (current_user : TokenPayload) (db : Store)
    : OrderReply * Store :=
  match get_order_body order_id current_user (get_db db) with
  | (Returned r, c) => (r, close c)
  | (Raised _, c) => (order_error "DATABASE_ERROR" [Text "Failed to get order"], close c)
  end.

(** The stored record as [get_order] shows it. *)
Definition shown (order_id : UUID) (row : OrderRow) : OrderResponse :=
  {| r_id := order_id; r_user_id := o_user_id row; r_items := o_items row;
     r_total_amount := o_total_amount row; r_status := o_status row;
     r_created_at := o_created_at row; r_updated_at := o_updated_at row |}.

(** The total of a response, none when it is not a listing. *)
Definition returned_total (r : BaseResponse) : option Z :=
  match data r with
  | Some (DataOrders _ total _ _) => Some total
  | _ => None
  end.

(** The pages 1 to [k] of a listing, one after the other. *)
Definition first_pages (current_user : TokenPayload) (size : Z)
    (status : option string) (db : Store) (k : nat) : list Order :=
  concat ((fun p : nat =>
             returned_orders
               (Postgres.get_user_orders current_user (Z.of_nat p) size status db).1)
          <$> seq 1 k).

(** The columns of an order that no statement of the service updates. *)
Definition same_order (a b : OrderRow) : Prop :=
  o_user_id a = o_user_id b ∧ o_items a = o_items b
  ∧ o_total_amount a = o_total_amount b ∧ o_created_at a = o_created_at b.

(** How far a status is along the life cycle. *)
Definition progress (s : string) : nat :=
  if bool_decide (s = "created") then 0
  else if bool_decide (s = "in_progress") then 1
  else 2.

(** * Users service *)

(** ** The e-mail pattern *)

(** An item between the brackets of a character set. *)
Inductive SetItem :=
  | Range (lo hi : ascii)
  | Single (c : ascii).

(** The tokens the pattern is made of: the anchors [^] and [$], a literal
    character, and a character set repeated at least [min] times ([+] is
    [min] = 1, [{2,}] is [min] = 2). *)
Inductive Token :=
  | Caret
  | Dollar
  | Literal (c : ascii)
  | AtLeast (min : nat) (set : list SetItem).

Definition in_item (c : ascii) (i : SetItem) : bool :=
  match i with
  | Range lo hi => ((N_of_ascii lo <=? N_of_ascii c) && (N_of_ascii c <=? N_of_ascii hi))%N
  | Single c' => Ascii.eqb c c'
  end.

Definition in_set (set : list SetItem) (c : ascii) : bool :=
  existsb (in_item c) set.

Definition newline : string := String "010"%char EmptyString.

(** What may be left of [s] after any number of characters of the set. *)
Fixpoint any_number (set : list SetItem) (s : string) : list string :=
  s :: match s with
       | String c s' => if in_set set c then any_number set s' else []
       | EmptyString => []
       end.

Fixpoint at_least (min : nat) (set : list SetItem) (s : string) : list string :=
  match min with
  | 0 => any_number set s
  | S min =>
      match s with
      | String c s' => if in_set set c then at_least min set s' else []
      | EmptyString => []
      end
  end.

(** What may be left of [s], a suffix of the subject [whole], after the
    token. [^] holds at the start of the subject; [$] holds at its end and
    just before a newline that ends it. *)
Definition after (whole : string) (t : Token) (s : string) : list string :=
  match t with
  | Caret => if String.eqb s whole then [s] else []
  | Dollar => if String.eqb s "" || String.eqb s newline then [s] else []
  | Literal c =>
      match s with
      | String c' s' => if Ascii.eqb c' c then [s'] else []
      | EmptyString => []
      end
  | AtLeast min set => at_least min set s
  end.

Fixpoint matches (whole : string) (pattern : list Token) (s : string) : bool :=
  match pattern with
  | [] => true
  | t :: pattern => existsb (matches whole pattern) (after whole t s)
  end.

(** [re.match(pattern, v)] taken as a truth value. A [str] is read as its
    UTF-8 bytes; the sets of the pattern hold ASCII characters only, so a
    character outside ASCII is in none of them, byte by byte. *)
Definition re_match (pattern : list Token) (v : string) : bool :=
  matches v pattern v.

(** [[a-zA-Z0-9._%+-]], [[a-zA-Z0-9.-]] and [[a-zA-Z]] *)
Definition local_set : list SetItem :=
  [Range "a" "z"; Range "A" "Z"; Range "0" "9";
   Single "."; Single "_"; Single "%"; Single "+"; Single "-"].

Definition domain_set : list SetItem :=
  [Range "a" "z"; Range "A" "Z"; Range "0" "9"; Single "."; Single "-"].

Definition letter_set : list SetItem :=
  [Range "a" "z"; Range "A" "Z"].

(** [r'^[a-zA-Z0-9._%+-]+@[a-zA-Z0-9.-]+\.[a-zA-Z]{2,}$'] *)
Definition EMAIL_PATTERN : list Token :=
  [ Caret;
    AtLeast 1 local_set;
    Literal "@";
    AtLeast 1 domain_set;
    Literal ".";
    AtLeast 2 letter_set;
    Dollar ].

(** The validator of [UserBase] and of [LoginRequest], and the one of
    [UserUpdate] on an address that is not [None]: [Some] is the message of
    the [ValueError] raised. *)
Definition validate_email (v : string) : option string :=
  if negb (re_match EMAIL_PATTERN v) then Some "Invalid email format" else None.

(** Every character of [s] is in the set. *)
Fixpoint all_in (set : list SetItem) (s : string) : bool :=
  match s with
  | String c s' => in_set set c && all_in set s'
  | EmptyString => true
  end.

(** How often the character occurs in [s]. *)
Fixpoint occurrences (c : ascii) (s : string) : nat :=
  match s with
  | String c' s' => (if Ascii.eqb c' c then 1 else 0) + occurrences c s'
  | EmptyString => 0
  end.

(** ** The handlers of the users service *)

Module Users.

(** One row of [SELECT * FROM users]: [user[0]] to [user[6]]. *)
Record UserRow := {
  u_id : UUID;
  u_email : string;
  u_password_hash : string;
  u_name : string;
  u_roles : string;
  u_created_at : Z;
  u_updated_at : Z
}.

(** The table, its rows in the order the scans find them. Its definition is
    not part of the sources and no constraint is taken for granted here:
    what the handlers need of uniqueness they check themselves, or it is a
    hypothesis of a theorem. *)
Abbreviation Table := (list UserRow) (only parsing).

(** The decoded token, as far as these handlers read it:
    [current_user["sub"]], absent ([None]) when the token has no such
    entry. *)
Record Token := {
  sub : option string
}.

(** The claims [login] signs. *)
Record Claims := {
  c_sub : string;
  c_user_id : UUID;
  c_role : string;
  c_exp : Z
}.

Record UserCreate := {
  uc_email : string;
  uc_name : string;
  uc_password : string
}.

Record LoginRequest := {
  lr_email : string;
  lr_password : string
}.

Record UserUpdate := {
  uu_name : option string;
  uu_email : option string
}.

(** [class UserResponse]: the password hash is not part of it. *)
Record UserResponse := {
  ur_id : UUID;
  ur_email : string;
  ur_name : string;
  ur_role : string;
  ur_created_at : Z;
  ur_updated_at : Z
}.

Inductive Exception :=
  | HTTPException (status_code : Z) (detail : string)
  | KeyError (key : string)
  | BcryptError
  | NulInParameter.

Inductive Data :=
  | DataUserId (user_id : UUID)
  | DataLogin (access_token : string) (token_type : string) (user_id : UUID)
  | DataUser (user : UserResponse)
  | DataMessage (msg : string).

Inductive Message :=
  | Plain (s : string)
  | WithException (s : string) (e : Exception).

Record BaseResponse := {
  success : bool;
  data : option Data;
  error : option (string * Message)
}.

Definition succeeded (d : Data) : BaseResponse :=
  {| success := true; data := Some d; error := None |}.

Definition failed (code : string) (message : Message) : BaseResponse :=
  {| success := false; data := None; error := Some (code, message) |}.

Record Conn := {
  committed : Table;
  pending : Table
}.

Inductive Outcome (A : Type) :=
  | Returned (a : A)
  | Raised (e : Exception).
Arguments Returned {A} a.
Arguments Raised {A} e.

Definition Db (A : Type) : Type := Conn -> Outcome A * Conn.

Definition ret {A} (a : A) : Db A := fun c => (Returned a, c).
Definition raise {A} (e : Exception) : Db A := fun c => (Raised e, c).
Definition bind {A B} (m : Db A) (k : A -> Db B) : Db B :=
  fun c =>
    match m c with
    | (Returned a, c') => k a c'
    | (Raised e, c') => (Raised e, c')
    end.

Notation "'run' x := m 'in' k" := (bind m (fun x => k))
  (at level 10, x pattern, m at level 100, k at level 200).
Notation "m >>> k" := (bind m (fun _ => k))
  (at level 100, k at level 200, right associativity).

Definition get_db (table : Table) : Conn := {| committed := table; pending := table |}.

Definition commit : Db unit :=
  fun c => (Returned tt, {| committed := pending c; pending := pending c |}).

Definition rollback (c : Conn) : Conn :=
  {| committed := committed c; pending := committed c |}.

Definition close (c : Conn) : Table := committed c.

(** [SELECT * FROM users WHERE email = %s] followed by [fetchone()]. The
    address is one that has passed the pattern of the request models, which
    lets no NUL through, or the [sub] of a token. *)
Definition select_by_email (email : string) : Db (option UserRow) :=
  fun c => (Returned (find (fun u => bool_decide (u_email u = email)) (pending c)), c).

(** [INSERT INTO users (id, email, password_hash, name, roles)]; [created_at]
    and [updated_at] are what the defaults of their columns give. psycopg2
    passes no [str] that holds NUL; what else the table refuses is not in
    the sources. *)
Definition insert_user (row : UserRow) : Db unit :=
  fun c =>
    if has_nul (u_email row) || has_nul (u_password_hash row) || has_nul (u_name row)
       || has_nul (u_roles row)
    then (Raised NulInParameter, c)
    else (Returned tt, {| committed := committed c; pending := pending c ++ [row] |}).

(** The row that [SET ..., updated_at = CURRENT_TIMESTAMP] makes of a row. *)
Definition updated (name email : option string) (now : Z) (u : UserRow) : UserRow :=
  {| u_id := u_id u;
     u_email := default (u_email u) email;
     u_password_hash := u_password_hash u;
     u_name := default (u_name u) name;
     u_roles := u_roles u;
     u_created_at := u_created_at u;
     u_updated_at := now |}.

(** [UPDATE users SET ..., updated_at = CURRENT_TIMESTAMP WHERE id = %s], the
    assignments being those for the fields given. PostgreSQL writes the new
    version of a row as a new row: the scans find it after the rows that
    were not updated. *)
Definition update_user (name email : option string) (id : UUID) (now : Z) : Db unit :=
  fun c =>
    if has_nul (default "" name) || has_nul (default "" email)
    then (Raised NulInParameter, c)
    else
      (Returned tt,
       {| committed := committed c;
          pending :=
            filter (fun u => u_id u ≠ id) (pending c)
            ++ (updated name email now <$> filter (fun u => u_id u = id) (pending c)) |}).

Section libraries.

(** What the libraries compute: [bcrypt.hashpw] of a password under a salt
    and [bcrypt.checkpw] of a password against a hash ([None] when they
    raise), and [jwt.encode] of the claims under the key of the service. *)
Context (bcrypt_hashpw : string -> string -> option string)
        (bcrypt_checkpw : string -> string -> option bool)
        (jwt_encode : Claims -> string).

(** [salt] is what [bcrypt.gensalt()] returns in this call. *)
Definition get_password_hash (password salt : string) : Db string :=
  match bcrypt_hashpw password salt with
  | Some h => ret h
  | None => raise BcryptError
  end.

Definition verify_password (plain_password hashed_password : string) : Db bool :=
  match bcrypt_checkpw plain_password hashed_password with
  | Some b => ret b
  | None => raise BcryptError
  end.

Definition ACCESS_TOKEN_EXPIRE_MINUTES : Z := 30.

(** [timedelta(minutes=m)], in microseconds like the times below. *)
Definition timedelta_minutes (m : Z) : Z := (m * 60 * 1000000)%Z.

(** [expires_delta] is a [timedelta] or [None]; a zero [timedelta] counts
    as none given. [utcnow] is [datetime.utcnow()] at the call. *)
Definition create_access_token (sub : string) (user_id : UUID) (role : string)
    (expires_delta : option Z) (utcnow : Z) : string :=
  let expire :=
    match expires_delta with
    | Some d =>
        if bool_decide (d ≠ 0%Z) then (utcnow + d)%Z
        else (utcnow + timedelta_minutes ACCESS_TOKEN_EXPIRE_MINUTES)%Z
    | None => (utcnow + timedelta_minutes ACCESS_TOKEN_EXPIRE_MINUTES)%Z
    end in
  jwt_encode {| c_sub := sub; c_user_id := user_id; c_role := role; c_exp := expire |}.

(** [POST /v1/register]. [uuid4] and [salt] are what [uuid.uuid4()] and
    [bcrypt.gensalt()] return in this call, [created_at] and [updated_at]
    what the column defaults give. *)
Definition register_body (user_data : UserCreate) (uuid4 : UUID) (salt : string)
    (created_at updated_at : Z) : Db BaseResponse :=
  run existing_user := select_by_email (uc_email user_data) in
  match existing_user with
  | Some _ => ret (failed "USER_EXISTS" (Plain "User with this email already exists"))
  | None =>
      let user_id := uuid4 in
      run hashed_password := get_password_hash (uc_password user_data) salt in
      insert_user {| u_id := user_id; u_email := uc_email user_data;
                     u_password_hash := hashed_password; u_name := uc_name user_data;
                     u_roles := "client";
                     u_created_at := created_at; u_updated_at := updated_at |} >>>
      commit >>>
      ret (succeeded (DataUserId user_id))
  end.

Definition register (user_data : UserCreate) (uuid4 : UUID) (salt : string)
    (created_at updated_at : Z) (table : Table) : BaseResponse * Table :=
  match register_body user_data uuid4 salt created_at updated_at (get_db table) with
  | (Returned r, c) => (r, close c)
  | (Raised e, c) =>
      (failed "DATABASE_ERROR" (WithException "Registration failed: " e),
       close (rollback c))
  end.

(** [POST /v1/login] *)
Definition login_body (login_data : LoginRequest) (utcnow : Z) : Db BaseResponse :=
  run user := select_by_email (lr_email login_data) in
  run refused :=
    match user with
    | None => ret true
    | Some user =>
        run ok := verify_password (lr_password login_data) (u_password_hash user) in
        ret (negb ok)
    end in
  match user, refused with
  | Some user, false =>
      let access_token :=
        create_access_token (u_email user) (u_id user) (u_roles user)
                            (Some (timedelta_minutes 30)) utcnow in
      ret (succeeded (DataLogin access_token "bearer" (u_id user)))
  | _, _ => ret (failed "INVALID_CREDENTIALS" (Plain "Invalid email or password"))
  end.

Definition login (login_data : LoginRequest) (utcnow : Z) (table : Table)
    : BaseResponse * Table :=
  match login_body login_data utcnow (get_db table) with
  | (Returned r, c) => (r, close c)
  | (Raised _, c) => (failed "DATABASE_ERROR" (Plain "Login failed"), close c)
  end.

End libraries.

(** [current_user["sub"]] *)
Definition token_sub (current_user : Token) : Db string :=
  match sub current_user with
  | Some s => ret s
  | None => raise (KeyError "sub")
  end.

(** [GET /v1/profile]. The [HTTPException] is raised inside the [try], whose
    [except Exception] takes it like any other. *)
Definition get_profile_body (current_user : Token) : Db BaseResponse :=
  run email := token_sub current_user in
  run user := select_by_email email in
  match user with
  | None => raise (HTTPException 404 "User not found")
  | Some user =>
      let user_response :=
        {| ur_id := u_id user; ur_email := u_email user; ur_name := u_name user;
           ur_role := u_roles user; ur_created_at := u_created_at user;
           ur_updated_at := u_updated_at user |} in
      ret (succeeded (DataUser user_response))
  end.

Definition get_profile (current_user : Token) (table : Table) : BaseResponse * Table :=
  match get_profile_body current_user (get_db table) with
  | (Returned r, c) => (r, close c)
  | (Raised _, c) => (failed "DATABASE_ERROR" (Plain "Failed to get profile"), close c)
  end.

(** [PUT /v1/profile] *)
Definition update_profile_body (user_update : UserUpdate) (current_user : Token)
    (now : Z) : Db BaseResponse :=
  run email := token_sub current_user in
  run user := select_by_email email in
  match user with
  | None => raise (HTTPException 404 "User not found")
  | Some user =>
      run taken :=
        match truthy (uu_email user_update) with
        | Some new_email =>
            if bool_decide (new_email ≠ u_email user)
            then run existing_user := select_by_email new_email in
                 ret (bool_decide (is_Some existing_user))
            else ret false
        | None => ret false
        end in
      if taken : bool
      then ret (failed "EMAIL_EXISTS" (Plain "Email already in use"))
      else
        let name := truthy (uu_name user_update) in
        let email := truthy (uu_email user_update) in
        (match name, email with
         | None, None => ret tt
         | _, _ => update_user name email (u_id user) now >>> commit
         end) >>>
        ret (succeeded (DataMessage "Profile updated successfully"))
  end.

Definition update_profile (user_update : UserUpdate) (current_user : Token)
    (now : Z) (table : Table) : BaseResponse * Table :=
  match update_profile_body user_update current_user now (get_db table) with
  | (Returned r, c) => (r, close c)
  | (Raised _, c) =>
      (failed "DATABASE_ERROR" (Plain "Failed to update profile"), close (rollback c))
  end.

(** What a row keeps through every statement of the service. *)
Definition identity (u : UserRow) : UUID * string * string * Z :=
  (u_id u, u_password_hash u, u_roles u, u_created_at u).

End Users.

(** ** Sample data of the users service *)

(** Stand-ins for the libraries in the examples: the hash is the salt
    followed by the password, the token the subject of the claims. *)
Definition sample_hashpw (password salt : string) : option string :=
  Some (salt +:+ password).

Definition sample_checkpw (password hashed : string) : option bool :=
  Some (bool_decide (hashed = "salt" +:+ password)).

Definition sample_encode (claims : Users.Claims) : string := Users.c_sub claims.

Definition ann : Users.UserRow :=
  {| Users.u_id := 7%N; Users.u_email := "ann@example.org";
     Users.u_password_hash := "saltsecret"; Users.u_name := "Ann";
     Users.u_roles := "client"; Users.u_created_at := 100; Users.u_updated_at := 100 |}.

Definition sample_users : list Users.UserRow :=
  [ {| Users.u_id := 1%N; Users.u_email := "root@example.org";
       Users.u_password_hash := "salttoor"; Users.u_name := "Root";
       Users.u_roles := "admin"; Users.u_created_at := 50; Users.u_updated_at := 50 |};
    ann ].

Definition ann_token : Users.Token :=
  {| Users.sub := Some "ann@example.org" |}.

(** * Properties *)

(** ** The transition table *)

Lemma transitions_lookup (current_status : string) :
  VALID_STATUS_TRANSITIONS !! current_status =
    if decide (current_status = "created") then Some ["in_progress"; "cancelled"]
    else if decide (current_status = "in_progress") then Some ["completed"; "cancelled"]
    else if decide (current_status = "completed") then Some []
    else if decide (current_status = "cancelled") then Some []
    else None.
Proof.
  unfold VALID_STATUS_TRANSITIONS.
  rewrite !lookup_insert, lookup_empty.
  repeat case_decide; congruence.
Qed.

Lemma allowed_transitions_spec (from to : string) :
  to ∈ dict_get VALID_STATUS_TRANSITIONS from [] ↔ transition_table from to.
Proof.
  unfold dict_get, transition_table. rewrite transitions_lookup.
  repeat destruct (decide _); subst; rewrite ?elem_of_cons, ?elem_of_nil;
    intuition (try discriminate; try congruence; auto).
Qed.

Lemma is_valid_status_transition_spec (from to : string) :
  is_valid_status_transition from to = true ↔ transition_table from to.
Proof.
  unfold is_valid_status_transition, py_in.
  rewrite bool_decide_eq_true. apply allowed_transitions_spec.
Qed.

Lemma is_valid_status_transition_false (from to : string) :
  is_valid_status_transition from to = false ↔ ¬ transition_table from to.
Proof.
  rewrite <- is_valid_status_transition_spec.
  destruct (is_valid_status_transition from to); intuition congruence.
Qed.

Lemma transition_table_irrefl (s : string) : ¬ transition_table s s.
Proof. unfold transition_table. intros [[-> [?|?]]|[-> [?|?]]]; discriminate. Qed.

Lemma transition_table_terminal (from to : string) :
  terminal from → ¬ transition_table from to.
Proof. unfold terminal, transition_table. intros [->| ->] [[? _]|[? _]]; discriminate. Qed.

Lemma transition_table_recognized (from to : string) :
  transition_table from to → to ∈ ORDER_STATUSES.
Proof.
  unfold transition_table, ORDER_STATUSES.
  intros [[_ [->| ->]]|[_ [->| ->]]]; rewrite !elem_of_cons; auto 6.
Qed.

Lemma recognized_truthy (s : string) : s ∈ ORDER_STATUSES → truthy (Some s) = Some s.
Proof.
  unfold ORDER_STATUSES. rewrite !elem_of_cons, elem_of_nil.
  intros [->|[->|[->|[->|[]]]]]; reflexivity.
Qed.

Lemma truthy_Some (o : option string) (s : string) :
  truthy o = Some s ↔ o = Some s ∧ s ≠ "".
Proof.
  unfold truthy. destruct o as [s'|]; [|intuition congruence].
  case_bool_decide; intuition congruence.
Qed.

Lemma truthy_None (o : option string) :
  truthy o = None ↔ o = None ∨ o = Some "".
Proof.
  unfold truthy. destruct o as [s'|]; [|intuition congruence].
  case_bool_decide; intuition congruence.
Qed.

(** ** Running a handler *)

Create HintDb handlers.

#[global] Hint Unfold update_order cancel_order create_order get_user_orders
  update_order_body cancel_order_body create_order_body get_user_orders_body
  handler bind select_order current_user_uuid insert_order select_orders
  count_orders : handlers.

(** Enter a handler and run it as far as the hypotheses at hand decide. *)
Ltac enter_handler := autounfold with handlers; simpl.

(** Use what is known of a lookup or of the token, and run on. *)
Ltac known H := rewrite H; simpl.

(** ** The exits of [update_order] *)

Section update_order_exits.
Context (db : gmap N OrderRow) (order_id : N) (order_update : OrderUpdate)
        (current_user : TokenPayload) (now : Z).

Lemma update_order_not_found :
  db !! order_id = None →
  update_order order_id order_update current_user now db
  = (respond_error "ORDER_NOT_FOUND" [Text "Order not found"], db).
Proof.
  intros Hrow. enter_handler. rewrite Hrow. reflexivity.
Qed.

Context (row : OrderRow) (Hrow : db !! order_id = Some row).

Lemma update_order_bad_token :
  claim_user_id current_user = None →
  update_order order_id order_update current_user now db
  = (respond_error "DATABASE_ERROR" [Text "Failed to update order"], db).
Proof.
  intros Hid. enter_handler. known Hrow. rewrite Hid. reflexivity.
Qed.

Context (uid : N) (Hid : claim_user_id current_user = Some uid).

Lemma update_order_denied :
  o_user_id row ≠ uid → claim_role current_user ≠ Some "admin" →
  update_order order_id order_update current_user now db
  = (respond_error "ACCESS_DENIED" [Text "Access to update this order denied"], db).
Proof.
  intros Hne Hrole. enter_handler. known Hrow. known Hid.
  rewrite !bool_decide_eq_true_2 by done. reflexivity.
Qed.

Context (Hauth : o_user_id row = uid ∨ claim_role current_user = Some "admin").

Lemma update_order_allowed :
  update_order order_id order_update current_user now db
  = match truthy (ou_status order_update) with
    | Some new_status =>
        if negb (py_in new_status ORDER_STATUSES)
        then (respond_error "INVALID_STATUS"
                [Text "Invalid status. Allowed: "; FieldList ORDER_STATUSES], db)
        else if negb (is_valid_status_transition (o_status row) new_status)
        then (respond_error "INVALID_STATUS_TRANSITION"
                [Text "Cannot change status from '"; Field (o_status row);
                 Text "' to '"; Field new_status; Text "'. ";
                 Text "Allowed transitions: ";
                 FieldList (dict_get VALID_STATUS_TRANSITIONS (o_status row) [])], db)
        else (respond_ok (DataMessage "Order updated successfully"),
              <[order_id := set_status new_status now row]> db)
    | None => (respond_ok (DataMessage "Order updated successfully"), db)
    end.
Proof.
  enter_handler. known Hrow. known Hid.
  assert (bool_decide (o_user_id row ≠ uid)
          && bool_decide (claim_role current_user ≠ Some "admin") = false) as ->.
  { destruct Hauth as [<-|Hadmin].
    - rewrite bool_decide_eq_false_2 by auto. reflexivity.
    - rewrite (bool_decide_eq_false_2 (claim_role _ ≠ _)) by auto.
      apply andb_false_r. }
  destruct (truthy (ou_status order_update)) as [new_status|]; [|reflexivity].
  destruct (py_in new_status ORDER_STATUSES); [|reflexivity]. simpl.
  destruct (is_valid_status_transition (o_status row) new_status); [|reflexivity].
  simpl. unfold close. simpl. by rewrite (alter_alt_Some _ _ _ _ Hrow).
Qed.
End update_order_exits.

(** ** The exits of [cancel_order] *)

Section cancel_order_exits.
Context (db : gmap N OrderRow) (order_id : N) (current_user : TokenPayload) (now : Z).

Lemma cancel_order_not_found :
  db !! order_id = None →
  cancel_order order_id current_user now db
  = (respond_error "ORDER_NOT_FOUND" [Text "Order not found"], db).
Proof.
  intros Hrow. enter_handler. rewrite Hrow. reflexivity.
Qed.

Context (row : OrderRow) (Hrow : db !! order_id = Some row).

Lemma cancel_order_bad_token :
  claim_user_id current_user = None →
  cancel_order order_id current_user now db
  = (respond_error "DATABASE_ERROR" [Text "Failed to cancel order"], db).
Proof.
  intros Hid. enter_handler. known Hrow. rewrite Hid. reflexivity.
Qed.

Context (uid : N) (Hid : claim_user_id current_user = Some uid).

Lemma cancel_order_denied :
  o_user_id row ≠ uid →
  cancel_order order_id current_user now db
  = (respond_error "ACCESS_DENIED" [Text "Only order owner can cancel the order"], db).
Proof.
  intros Hne. enter_handler. known Hrow. known Hid.
  rewrite bool_decide_eq_true_2 by done. reflexivity.
Qed.

Lemma cancel_order_owner :
  o_user_id row = uid →
  cancel_order order_id current_user now db
  = if negb (is_valid_status_transition (o_status row) "cancelled")
    then (respond_error "CANNOT_CANCEL"
            [Text "Cannot cancel order with status '"; Field (o_status row);
             Text "'. ";
             Text "Order can only be cancelled from 'created' or 'in_progress' status."],
          db)
    else (respond_ok (DataMessage "Order cancelled successfully"),
          <[order_id := set_status "cancelled" now row]> db).
Proof.
  intros Howner. enter_handler. known Hrow. known Hid.
  rewrite bool_decide_eq_false_2 by auto.
  change OrderStatus.CANCELLED with "cancelled".
  destruct (is_valid_status_transition (o_status row) "cancelled"); [|reflexivity].
  simpl. unfold close. simpl. by rewrite (alter_alt_Some _ _ _ _ Hrow).
Qed.
End cancel_order_exits.

(** ** The exits of [create_order] *)

Lemma items_for_json_id (items : list OrderItem) :
  (fun item => {| product_id := product_id item; product_name := product_name item;
                  quantity := quantity item; price := price item |}) <$> items = items.
Proof.
  induction items as [|[] items IH]; [reflexivity|].
  rewrite fmap_cons, IH. reflexivity.
Qed.

Section create_order_exits.
Context (db : gmap N OrderRow) (order_data : OrderCreate)
        (current_user : TokenPayload) (uuid4 : N) (now : Z).

Lemma create_order_bad_token :
  claim_user_id current_user = None →
  create_order order_data current_user uuid4 now db
  = (respond_error "DATABASE_ERROR"
       [Text "Order creation failed: "; FieldExn UUID_ValueError], db).
Proof.
  intros Hid. enter_handler. rewrite Hid. reflexivity.
Qed.

Context (uid : N) (Hid : claim_user_id current_user = Some uid).

Lemma create_order_bad_json :
  existsb (fun item => negb (is_finite (price item))) (oc_items order_data) = true →
  create_order order_data current_user uuid4 now db
  = (respond_error "DATABASE_ERROR"
       [Text "Order creation failed: "; FieldExn InvalidTextRepresentation], db).
Proof.
  intros Hjson. enter_handler. known Hid. rewrite items_for_json_id. by known Hjson.
Qed.

Context (Hjson : existsb (fun item => negb (is_finite (price item)))
                   (oc_items order_data) = false).

Lemma create_order_duplicate_key :
  db !! uuid4 ≠ None →
  create_order order_data current_user uuid4 now db
  = (respond_error "DATABASE_ERROR"
       [Text "Order creation failed: "; FieldExn (UniqueViolation uuid4)], db).
Proof.
  intros Hkey. enter_handler. known Hid. rewrite items_for_json_id. known Hjson.
  destruct (db !! uuid4); [reflexivity|congruence].
Qed.

Lemma create_order_inserted :
  db !! uuid4 = None →
  create_order order_data current_user uuid4 now db
  = (respond_ok (DataOrderId uuid4), <[uuid4 := new_order uid order_data now]> db).
Proof.
  intros Hkey. enter_handler. known Hid. rewrite items_for_json_id. known Hjson.
  by known Hkey.
Qed.
End create_order_exits.

(** ** The exits of [get_user_orders] *)

Lemma orders_data_id (orders : list (N * OrderRow)) :
  (fun order : N * OrderRow => (order.1, order.2)) <$> orders = orders.
Proof.
  induction orders as [|[] orders IH]; [reflexivity|].
  rewrite fmap_cons, IH. reflexivity.
Qed.

Section get_user_orders_exits.
Context (db : gmap N OrderRow) (current_user : TokenPayload) (page size : Z)
        (status : option string).

Lemma get_user_orders_store :
  (get_user_orders current_user page size status db).2 = db.
Proof.
  enter_handler. destruct (claim_user_id current_user); [|reflexivity]. simpl.
  destruct ((size <? 0)%Z || ((page - 1) * size <? 0)%Z); reflexivity.
Qed.

Lemma get_user_orders_bad_token :
  claim_user_id current_user = None →
  get_user_orders current_user page size status db
  = (respond_error "DATABASE_ERROR" [Text "Failed to get orders"], db).
Proof.
  intros Hid. enter_handler. rewrite Hid. reflexivity.
Qed.

Context (uid : N) (Hid : claim_user_id current_user = Some uid).

Lemma get_user_orders_bad_range :
  (size < 0 ∨ (page - 1) * size < 0)%Z →
  get_user_orders current_user page size status db
  = (respond_error "DATABASE_ERROR" [Text "Failed to get orders"], db).
Proof.
  intros Hrange. enter_handler. known Hid.
  assert ((size <? 0)%Z || ((page - 1) * size <? 0)%Z = true) as ->; [|reflexivity].
  apply orb_true_iff. rewrite !Z.ltb_lt. exact Hrange.
Qed.

Lemma get_user_orders_page :
  (0 ≤ size)%Z → (0 ≤ (page - 1) * size)%Z →
  get_user_orders current_user page size status db
  = (respond_ok
       (DataOrders
          (take (Z.to_nat size)
             (drop (Z.to_nat ((page - 1) * size))
                (order_by_created_at_desc
                   (scan (listing_conds current_user uid status) db))))
          (Z.of_nat (length (scan (listing_conds current_user uid status) db)))
          page size),
     db).
Proof.
  intros Hsize Hoffset. enter_handler. known Hid.
  assert ((size <? 0)%Z || ((page - 1) * size <? 0)%Z = false) as ->.
  { apply orb_false_iff. rewrite !Z.ltb_ge. auto. }
  simpl. rewrite orders_data_id. unfold listing_conds.
  destruct (truthy status); [reflexivity|]. by rewrite app_nil_r.
Qed.

(** On PostgreSQL the same listing, unless a parameter is refused. *)
Lemma refused_listing_conds :
  existsb refused_parameter (listing_conds current_user uid status)
  = negb (passable status).
Proof.
  unfold listing_conds, passable. rewrite existsb_app.
  assert (existsb refused_parameter
            (if bool_decide (claim_role current_user = Some "admin")
             then [] else [UserIdIs uid]) = false) as ->
    by (by case_bool_decide).
  destruct (truthy status); simpl; [|reflexivity].
  by rewrite orb_false_r, negb_involutive.
Qed.

Lemma built_listing_conds :
  match truthy status with
  | Some s =>
      (if bool_decide (claim_role current_user = Some "admin")
       then [] else [UserIdIs uid]) ++ [StatusIs s]
  | None =>
      if bool_decide (claim_role current_user = Some "admin") then [] else [UserIdIs uid]
  end = listing_conds current_user uid status.
Proof.
  unfold listing_conds. destruct (truthy status); [reflexivity|]. by rewrite app_nil_r.
Qed.

Lemma Postgres_get_user_orders_passed :
  passable status = true → in_bigint size = true → in_bigint ((page - 1) * size) = true →
  Postgres.get_user_orders current_user page size status db
  = get_user_orders current_user page size status db.
Proof.
  intros Hstatus Hsize Hoffset.
  unfold Postgres.get_user_orders, get_user_orders, Postgres.get_user_orders_body,
    get_user_orders_body, handler, bind, current_user_uuid.
  rewrite Hid. cbn [ret get_db]. rewrite built_listing_conds.
  unfold Postgres.select_orders, Postgres.count_orders.
  rewrite refused_listing_conds, Hstatus, Hsize, Hoffset. cbn [negb andb pending].
  destruct (select_orders _ _ _ _) as [[orders|e] c] eqn:Hselect; [|reflexivity].
  assert (c = {| committed := db; pending := db |}) as ->.
  { unfold select_orders in Hselect. cbn [pending] in Hselect.
    destruct (_ || _); by injection Hselect. }
  cbn [pending]. reflexivity.
Qed.

Lemma Postgres_get_user_orders_refused :
  passable status = false ∨ in_bigint size = false ∨ in_bigint ((page - 1) * size) = false →
  Postgres.get_user_orders current_user page size status db
  = (respond_error "DATABASE_ERROR" [Text "Failed to get orders"], db).
Proof.
  intros Hrefused.
  unfold Postgres.get_user_orders, Postgres.get_user_orders_body, handler, bind,
    current_user_uuid.
  rewrite Hid. cbn [ret get_db]. rewrite built_listing_conds.
  unfold Postgres.select_orders. rewrite refused_listing_conds.
  destruct (passable status); [|reflexivity]. cbn [negb].
  destruct (in_bigint size), (in_bigint ((page - 1) * size)); try reflexivity.
  destruct Hrefused as [?|[?|?]]; discriminate.
Qed.

Lemma Postgres_get_user_orders_page :
  passable status = true →
  (0 ≤ size ≤ BIGINT_MAX)%Z → (0 ≤ (page - 1) * size ≤ BIGINT_MAX)%Z →
  Postgres.get_user_orders current_user page size status db
  = (respond_ok
       (DataOrders
          (take (Z.to_nat size)
             (drop (Z.to_nat ((page - 1) * size))
                (order_by_created_at_desc
                   (scan (listing_conds current_user uid status) db))))
          (Z.of_nat (length (scan (listing_conds current_user uid status) db)))
          page size),
     db).
Proof.
  intros Hstatus Hsize Hoffset.
  rewrite Postgres_get_user_orders_passed, get_user_orders_page; try done; try lia.
  - unfold in_bigint, BIGINT_MAX in *. apply andb_true_iff.
    rewrite !Z.leb_le. lia.
  - unfold in_bigint, BIGINT_MAX in *. apply andb_true_iff.
    rewrite !Z.leb_le. lia.
Qed.
End get_user_orders_exits.

Lemma Postgres_get_user_orders_bad_token (db : gmap N OrderRow) current_user page size
    status :
  claim_user_id current_user = None →
  Postgres.get_user_orders current_user page size status db
  = (respond_error "DATABASE_ERROR" [Text "Failed to get orders"], db).
Proof.
  intros Hid.
  unfold Postgres.get_user_orders, Postgres.get_user_orders_body, handler, bind,
    current_user_uuid.
  rewrite Hid. reflexivity.
Qed.

(** What a listing on PostgreSQL answers: the page, or the one error. *)
Lemma Postgres_get_user_orders_result (db : gmap N OrderRow) current_user page size
    status :
  Postgres.get_user_orders current_user page size status db
  = (respond_error "DATABASE_ERROR" [Text "Failed to get orders"], db)
  ∨ ∃ uid,
      claim_user_id current_user = Some uid
      ∧ passable status = true
      ∧ (0 ≤ size ≤ BIGINT_MAX)%Z ∧ (0 ≤ (page - 1) * size ≤ BIGINT_MAX)%Z
      ∧ Postgres.get_user_orders current_user page size status db
        = (respond_ok
             (DataOrders
                (take (Z.to_nat size)
                   (drop (Z.to_nat ((page - 1) * size))
                      (order_by_created_at_desc
                         (scan (listing_conds current_user uid status) db))))
                (Z.of_nat (length (scan (listing_conds current_user uid status) db)))
                page size),
           db).
Proof.
  destruct (claim_user_id current_user) as [uid|] eqn:Hid;
    [|left; by apply Postgres_get_user_orders_bad_token].
  destruct (passable status) eqn:Hstatus;
    [|left; apply (Postgres_get_user_orders_refused _ _ _ _ _ _ Hid); auto].
  destruct (in_bigint size) eqn:Hsize;
    [|left; apply (Postgres_get_user_orders_refused _ _ _ _ _ _ Hid); auto].
  destruct (in_bigint ((page - 1) * size)) eqn:Hoffset;
    [|left; apply (Postgres_get_user_orders_refused _ _ _ _ _ _ Hid); auto].
  destruct (Z_lt_dec size 0) as [Hs|Hs];
    [|destruct (Z_lt_dec ((page - 1) * size) 0) as [Hp|Hp]].
  - left. rewrite (Postgres_get_user_orders_passed _ _ _ _ _ _ Hid) by done.
    apply (get_user_orders_bad_range _ _ _ _ _ _ Hid). auto.
  - left. rewrite (Postgres_get_user_orders_passed _ _ _ _ _ _ Hid) by done.
    apply (get_user_orders_bad_range _ _ _ _ _ _ Hid). auto.
  - right. exists uid. unfold in_bigint in Hsize, Hoffset.
    apply andb_true_iff in Hsize as [_ Hsize%Z.leb_le].
    apply andb_true_iff in Hoffset as [_ Hoffset%Z.leb_le].
    split; [reflexivity|]. split; [reflexivity|]. split; [lia|]. split; [lia|].
    apply (Postgres_get_user_orders_page _ _ _ _ _ _ Hid); [done|lia|lia].
Qed.

(** ** What a listing ranges over *)

Lemma where_listing_conds current_user uid status (o : N * OrderRow) :
  where_ (listing_conds current_user uid status) o ↔ visible current_user uid status o.
Proof.
  unfold where_, listing_conds, visible.
  rewrite forallb_True, Forall_app.
  assert (Forall (fun c => satisfies o c)
            (if bool_decide (claim_role current_user = Some "admin")
             then [] else [UserIdIs uid])
          ↔ claim_role current_user = Some "admin" ∨ o_user_id o.2 = uid) as Hown.
  { case_bool_decide as Hrole.
    - rewrite Forall_nil. tauto.
    - rewrite Forall_singleton. simpl. rewrite bool_decide_spec. tauto. }
  assert (Forall (fun c => satisfies o c)
            match truthy status with Some s => [StatusIs s] | None => [] end
          ↔ status = None ∨ status = Some "" ∨ status = Some (o_status o.2)) as Hstatus.
  { destruct (truthy status) as [s|] eqn:Hs.
    - apply truthy_Some in Hs as [-> Hne].
      rewrite Forall_singleton. simpl. rewrite bool_decide_spec.
      split; [intros <-; auto|]. intros [?|[?|?]]; congruence.
    - apply truthy_None in Hs. rewrite Forall_nil. tauto. }
  tauto.
Qed.

Lemma elem_of_scan current_user uid status (db : gmap N OrderRow) (o : N * OrderRow) :
  o ∈ scan (listing_conds current_user uid status) db
  ↔ db !! o.1 = Some o.2 ∧ visible current_user uid status o.
Proof.
  unfold scan. rewrite list_elem_of_filter, where_listing_conds.
  destruct o as [id row]. rewrite elem_of_map_to_list. simpl. tauto.
Qed.

Lemma NoDup_scan conds (db : gmap N OrderRow) : NoDup (scan conds db).
Proof. unfold scan. apply NoDup_filter, NoDup_map_to_list. Qed.

#[global] Instance newer_first_trans : Transitive newer_first.
Proof. unfold newer_first. intros a b c ??. lia. Qed.

#[global] Instance newer_first_total : Total newer_first.
Proof. unfold newer_first. intros a b. lia. Qed.

Lemma order_by_created_at_desc_sorted rows :
  StronglySorted newer_first (order_by_created_at_desc rows).
Proof. apply StronglySorted_merge_sort; apply _. Qed.

Lemma order_by_created_at_desc_perm rows : order_by_created_at_desc rows ≡ₚ rows.
Proof. apply merge_sort_Permutation. Qed.

Lemma elem_of_page {A} (l : list A) (n k : nat) (x : A) :
  x ∈ take n (drop k l) → x ∈ l.
Proof.
  intros Hx. apply elem_of_take in Hx as (i & Hi & _).
  rewrite lookup_drop in Hi. by eapply list_elem_of_lookup_2.
Qed.

Lemma returned_orders_visible (db : gmap N OrderRow) current_user uid page size status o :
  claim_user_id current_user = Some uid →
  o ∈ returned_orders (get_user_orders current_user page size status db).1 →
  db !! o.1 = Some o.2 ∧ visible current_user uid status o.
Proof.
  intros Hid Ho.
  destruct (Z_lt_dec size 0) as [Hs|Hs];
    [|destruct (Z_lt_dec ((page - 1) * size) 0) as [Hp|Hp]].
  - rewrite (get_user_orders_bad_range _ _ _ _ _ _ Hid) in Ho by auto.
    simpl in Ho. by apply elem_of_nil in Ho.
  - rewrite (get_user_orders_bad_range _ _ _ _ _ _ Hid) in Ho by auto.
    simpl in Ho. by apply elem_of_nil in Ho.
  - rewrite (get_user_orders_page _ _ _ _ _ _ Hid) in Ho by lia.
    simpl in Ho. apply elem_of_page in Ho.
    rewrite order_by_created_at_desc_perm in Ho. by apply elem_of_scan in Ho.
Qed.

(** Every element of a list is on one of its pages. *)
Lemma on_some_page {A} (l : list A) (x : A) (size : Z) :
  (1 ≤ size)%Z → x ∈ l →
  ∃ page : Z, (1 ≤ page)%Z
    ∧ x ∈ take (Z.to_nat size) (drop (Z.to_nat ((page - 1) * size)) l).
Proof.
  intros Hsize Hx. apply list_elem_of_lookup in Hx as [i Hi].
  set (sz := Z.to_nat size).
  assert (sz ≠ 0) as Hsz by (unfold sz; lia).
  exists (Z.of_nat (i / sz) + 1)%Z. split; [lia|].
  apply elem_of_take. exists (i mod sz). split.
  - rewrite lookup_drop.
    replace (Z.to_nat ((Z.of_nat (i / sz) + 1 - 1) * size)) with (sz * (i / sz)).
    + by rewrite <- Nat.div_mod_eq.
    + unfold sz. rewrite Z.add_simpl_r, Z2Nat.inj_mul, Nat2Z.id by lia. lia.
  - by apply Nat.mod_upper_bound.
Qed.

(** ** Status updates follow the transition table *)

(** C1: for a stored order and a requested status among the four recognized
    ones, [update_order] called by the owner or an admin succeeds exactly
    when the pair (current status, new status) is in the transition table,
    and then stores the new status; every other pair is answered with
    [INVALID_STATUS_TRANSITION], whose message carries the current status
    and its set of allowed targets, and the store is left as it was. *)
Theorem update_order_follows_table (db : gmap N OrderRow) (order_id : N)
    (row : OrderRow) (current_user : TokenPayload) (uid : N)
    (new_status : string) (now : Z) :
  db !! order_id = Some row →
  claim_user_id current_user = Some uid →
  o_user_id row = uid ∨ claim_role current_user = Some "admin" →
  new_status ∈ ORDER_STATUSES →
  let result :=
    update_order order_id {| ou_status := Some new_status |} current_user now db in
  (success result.1 = true ↔ transition_table (o_status row) new_status)
  ∧ (transition_table (o_status row) new_status →
       result = (respond_ok (DataMessage "Order updated successfully"),
                 <[order_id := set_status new_status now row]> db))
  ∧ (¬ transition_table (o_status row) new_status →
       ∃ allowed : list string,
         result = (respond_error "INVALID_STATUS_TRANSITION"
                     [Text "Cannot change status from '"; Field (o_status row);
                      Text "' to '"; Field new_status; Text "'. ";
                      Text "Allowed transitions: "; FieldList allowed], db)
         ∧ ∀ to, to ∈ allowed ↔ transition_table (o_status row) to).
Proof.
  intros Hrow Hid Hauth Hknown result. subst result.
  rewrite (update_order_allowed _ _ _ _ _ _ Hrow _ Hid Hauth). cbn [ou_status].
  rewrite (recognized_truthy _ Hknown).
  assert (py_in new_status ORDER_STATUSES = true) as ->
    by (by apply bool_decide_eq_true_2).
  cbn [negb].
  destruct (is_valid_status_transition (o_status row) new_status) eqn:Hvalid; simpl.
  - apply is_valid_status_transition_spec in Hvalid.
    split; [tauto|]. split; [reflexivity|]. tauto.
  - apply is_valid_status_transition_false in Hvalid.
    split; [split; [discriminate|tauto]|]. split; [tauto|].
    intros _. eexists. split; [reflexivity|]. apply allowed_transitions_spec.
Qed.

Lemma update_order_follows_table_witness :
  sample_store !! 10%N = Some (sample_order "created" 100)
  ∧ claim_user_id alice = Some 7%N
  ∧ update_order 10%N {| ou_status := Some "in_progress" |} alice 200 sample_store
    = (respond_ok (DataMessage "Order updated successfully"),
       <[10%N := set_status "in_progress" 200 (sample_order "created" 100)]> sample_store).
Proof.
  split; [reflexivity|]. split; [reflexivity|].
  apply (update_order_follows_table sample_store 10%N (sample_order "created" 100)
           alice 7%N "in_progress" 200).
  - reflexivity.
  - reflexivity.
  - left. reflexivity.
  - unfold ORDER_STATUSES. apply list_elem_of_In. simpl. tauto.
  - left. split; [reflexivity|]. left. reflexivity.
Defined.

(** ** Cancellation *)

(** C3: [cancel_order] on a stored order succeeds exactly when the caller's
    id is the owner's and the status is created or in_progress. Any other
    caller, whatever the role (admin included), gets [ACCESS_DENIED]; the
    owner of a completed or cancelled order gets [CANNOT_CANCEL]; on success
    the stored status is cancelled. *)
Theorem cancel_order_owner_only (db : gmap N OrderRow) (order_id : N)
    (row : OrderRow) (current_user : TokenPayload) (uid : N) (now : Z) :
  db !! order_id = Some row →
  claim_user_id current_user = Some uid →
  let result := cancel_order order_id current_user now db in
  (success result.1 = true
     ↔ uid = o_user_id row ∧ (o_status row = "created" ∨ o_status row = "in_progress"))
  ∧ (uid ≠ o_user_id row →
       result = (respond_error "ACCESS_DENIED" [Text "Only order owner can cancel the order"], db))
  ∧ (uid = o_user_id row → terminal (o_status row) →
       result = (respond_error "CANNOT_CANCEL"
                   [Text "Cannot cancel order with status '"; Field (o_status row);
                    Text "'. ";
                    Text "Order can only be cancelled from 'created' or 'in_progress' status."],
                 db))
  ∧ (success result.1 = true →
       result.2 = <[order_id := set_status "cancelled" now row]> db
       ∧ o_status <$> result.2 !! order_id = Some "cancelled").
Proof.
  intros Hrow Hid result. subst result.
  assert (transition_table (o_status row) "cancelled"
          ↔ o_status row = "created" ∨ o_status row = "in_progress") as Htable.
  { unfold transition_table. intuition discriminate. }
  destruct (decide (o_user_id row = uid)) as [Howner|Hother].
  - rewrite (cancel_order_owner _ _ _ _ _ Hrow _ Hid Howner).
    destruct (is_valid_status_transition (o_status row) "cancelled") eqn:Hvalid; simpl.
    + apply is_valid_status_transition_spec in Hvalid.
      split; [intuition|]. split; [congruence|]. split.
      * intros _ Hterm. by apply transition_table_terminal with (to := "cancelled") in Hterm.
      * intros _. split; [reflexivity|]. by rewrite lookup_insert_eq.
    + apply is_valid_status_transition_false in Hvalid.
      split; [split; [discriminate|intuition]|]. split; [congruence|].
      split; [reflexivity|discriminate].
  - rewrite (cancel_order_denied _ _ _ _ _ Hrow _ Hid Hother). simpl.
    split; [split; [discriminate|intros [? _]; congruence]|].
    split; [reflexivity|]. split; [congruence|discriminate].
Qed.

Lemma cancel_order_owner_only_witness :
  sample_store !! 11%N = Some (sample_order "in_progress" 101)
  ∧ claim_user_id root = Some 1%N
  ∧ cancel_order 11%N root 200 sample_store
    = (respond_error "ACCESS_DENIED" [Text "Only order owner can cancel the order"], sample_store).
Proof.
  split; [reflexivity|]. split; [reflexivity|].
  apply (cancel_order_owner_only sample_store 11%N (sample_order "in_progress" 101)
           root 1%N 200); [reflexivity|reflexivity|discriminate].
Defined.

(** ** Authorization comes first *)

(** C5: a caller whose id is not the owner's and whose role is not admin
    gets [ACCESS_DENIED] from [update_order], with the same response and an
    unchanged store whatever the request asks for: no status, an unknown
    one, a legal or an illegal target. *)
Theorem update_order_denied_first (db : gmap N OrderRow) (order_id : N)
    (row : OrderRow) (current_user : TokenPayload) (uid : N) (now : Z) :
  db !! order_id = Some row →
  claim_user_id current_user = Some uid →
  uid ≠ o_user_id row →
  claim_role current_user ≠ Some "admin" →
  (∀ order_update,
     update_order order_id order_update current_user now db
     = (respond_error "ACCESS_DENIED" [Text "Access to update this order denied"], db))
  ∧ (∀ order_update order_update',
       update_order order_id order_update current_user now db
       = update_order order_id order_update' current_user now db).
Proof.
  intros Hrow Hid Hother Hrole.
  assert (∀ order_update,
     update_order order_id order_update current_user now db
     = (respond_error "ACCESS_DENIED" [Text "Access to update this order denied"], db)) as Hdenied.
  { intros order_update. apply (update_order_denied _ _ _ _ _ _ Hrow _ Hid); congruence. }
  split; [exact Hdenied|]. intros u u'. by rewrite !Hdenied.
Qed.

Lemma update_order_denied_first_witness :
  sample_store !! 10%N = Some (sample_order "created" 100)
  ∧ claim_user_id bob = Some 8%N
  ∧ update_order 10%N {| ou_status := Some "in_progress" |} bob 200 sample_store
    = update_order 10%N {| ou_status := Some "created" |} bob 200 sample_store.
Proof.
  split; [reflexivity|]. split; [reflexivity|].
  apply (update_order_denied_first sample_store 10%N (sample_order "created" 100)
           bob 8%N 200); [reflexivity|reflexivity|discriminate|discriminate].
Defined.

(** ** Repeating an update *)

(** C8: when an [update_order] call naming the target status [s] succeeds,
    the same call made again on the resulting store is answered with
    [INVALID_STATUS_TRANSITION]: the order is now in [s], and no status is
    among its own allowed targets. *)
Theorem update_order_not_idempotent (db : gmap N OrderRow) (order_id : N)
    (new_status : string) (current_user : TokenPayload) (now later : Z) :
  let first :=
    update_order order_id {| ou_status := Some new_status |} current_user now db in
  new_status ≠ "" →
  success first.1 = true →
  update_order order_id {| ou_status := Some new_status |} current_user later first.2
  = (respond_error "INVALID_STATUS_TRANSITION"
       [Text "Cannot change status from '"; Field new_status;
        Text "' to '"; Field new_status; Text "'. ";
        Text "Allowed transitions: ";
        FieldList (dict_get VALID_STATUS_TRANSITIONS new_status [])], first.2)
  ∧ new_status ∉ dict_get VALID_STATUS_TRANSITIONS new_status [].
Proof.
  intros first Hne Hok. subst first.
  assert (truthy (Some new_status) = Some new_status) as Htruthy
    by (apply truthy_Some; auto).
  assert (is_valid_status_transition new_status new_status = false) as Hself
    by apply is_valid_status_transition_false, transition_table_irrefl.
  split; [|rewrite allowed_transitions_spec; apply transition_table_irrefl].
  destruct (db !! order_id) as [row|] eqn:Hrow;
    [|by rewrite update_order_not_found in Hok].
  destruct (claim_user_id current_user) as [uid|] eqn:Hid;
    [|by rewrite (update_order_bad_token _ _ _ _ _ _ Hrow) in Hok].
  destruct (decide (o_user_id row = uid ∨ claim_role current_user = Some "admin"))
    as [Hauth|Hno];
    [|by rewrite (update_order_denied _ _ _ _ _ _ Hrow _ Hid) in Hok by tauto].
  rewrite (update_order_allowed _ _ _ _ _ _ Hrow _ Hid Hauth) in Hok |- *.
  cbn [ou_status] in Hok |- *. rewrite Htruthy in Hok |- *.
  destruct (py_in new_status ORDER_STATUSES) eqn:Hknown; [|discriminate Hok].
  cbn [negb] in Hok |- *.
  destruct (is_valid_status_transition (o_status row) new_status); [|discriminate Hok].
  cbn [negb snd].
  erewrite update_order_allowed; [|apply lookup_insert_eq|exact Hid|exact Hauth].
  cbn [ou_status o_status set_status]. rewrite Htruthy, Hknown, Hself. reflexivity.
Qed.

Lemma update_order_not_idempotent_witness :
  success (update_order 10%N {| ou_status := Some "in_progress" |} alice 200 sample_store).1
  = true
  ∧ success
      (update_order 10%N {| ou_status := Some "in_progress" |} alice 300
         (update_order 10%N {| ou_status := Some "in_progress" |} alice 200 sample_store).2).1
    = false.
Proof.
  split; [reflexivity|].
  destruct (update_order_not_idempotent sample_store 10%N "in_progress" alice 200 300)
    as [Hagain _]; [discriminate|reflexivity|].
  rewrite Hagain. reflexivity.
Defined.

(** ** A request without a status *)

(** C10: for a stored order, a request of the owner or of an admin whose
    [status] member is absent, null or the empty string is answered with
    success, whatever the stored status, and the store (the record with its
    status and [updated_at] included) is unchanged. *)
Theorem update_order_without_status (db : gmap N OrderRow) (order_id : N)
    (row : OrderRow) (current_user : TokenPayload) (uid : N)
    (status : JsonMember) (now : Z) :
  db !! order_id = Some row →
  claim_user_id current_user = Some uid →
  o_user_id row = uid ∨ claim_role current_user = Some "admin" →
  status = Absent ∨ status = Null ∨ status = Str "" →
  let result := PUT_v1_orders order_id status current_user now db in
  result = (Json (respond_ok (DataMessage "Order updated successfully")), db)
  ∧ result.2 !! order_id = Some row.
Proof.
  intros Hrow Hid Hauth Hstatus result. subst result.
  unfold PUT_v1_orders.
  rewrite (update_order_allowed _ _ _ _ _ _ Hrow _ Hid Hauth).
  assert (truthy (ou_status (OrderUpdate_of_json status)) = None) as ->
    by (destruct Hstatus as [->|[->| ->]]; reflexivity).
  split; [reflexivity|exact Hrow].
Qed.

Lemma update_order_without_status_witness :
  sample_store !! 12%N = Some (sample_order "completed" 102)
  ∧ claim_user_id alice = Some 7%N
  ∧ PUT_v1_orders 12%N (Str "") alice 200 sample_store
    = (Json (respond_ok (DataMessage "Order updated successfully")), sample_store).
Proof.
  split; [reflexivity|]. split; [reflexivity|].
  apply (update_order_without_status sample_store 12%N (sample_order "completed" 102)
           alice 7%N (Str "") 200); [reflexivity|reflexivity|by left|by right; right].
Defined.

(** ** What a request can do to the store *)

Lemma update_order_result (db : gmap N OrderRow) order_id order_update current_user now :
  let result := update_order order_id order_update current_user now db in
  (success result.1 = false ∧ result.2 = db)
  ∨ (truthy (ou_status order_update) = None ∧ success result.1 = true ∧ result.2 = db)
  ∨ (∃ row new_status,
       db !! order_id = Some row
       ∧ truthy (ou_status order_update) = Some new_status
       ∧ transition_table (o_status row) new_status
       ∧ success result.1 = true
       ∧ result.2 = <[order_id := set_status new_status now row]> db).
Proof.
  intros result. subst result.
  destruct (db !! order_id) as [row|] eqn:Hrow;
    [|rewrite update_order_not_found by done; auto].
  destruct (claim_user_id current_user) as [uid|] eqn:Hid;
    [|rewrite (update_order_bad_token _ _ _ _ _ _ Hrow) by done; auto].
  destruct (decide (o_user_id row = uid ∨ claim_role current_user = Some "admin"))
    as [Hauth|Hno];
    [|rewrite (update_order_denied _ _ _ _ _ _ Hrow _ Hid) by tauto; auto].
  rewrite (update_order_allowed _ _ _ _ _ _ Hrow _ Hid Hauth).
  destruct (truthy (ou_status order_update)) as [new_status|]; [|auto].
  destruct (py_in new_status ORDER_STATUSES); [|auto]. cbn [negb].
  destruct (is_valid_status_transition (o_status row) new_status) eqn:Hvalid; [|auto].
  apply is_valid_status_transition_spec in Hvalid.
  right; right. exists row, new_status. auto.
Qed.

Lemma cancel_order_result (db : gmap N OrderRow) order_id current_user now :
  let result := cancel_order order_id current_user now db in
  (success result.1 = false ∧ result.2 = db)
  ∨ (∃ row,
       db !! order_id = Some row
       ∧ transition_table (o_status row) "cancelled"
       ∧ success result.1 = true
       ∧ result.2 = <[order_id := set_status "cancelled" now row]> db).
Proof.
  intros result. subst result.
  destruct (db !! order_id) as [row|] eqn:Hrow;
    [|rewrite cancel_order_not_found by done; auto].
  destruct (claim_user_id current_user) as [uid|] eqn:Hid;
    [|rewrite (cancel_order_bad_token _ _ _ _ _ Hrow) by done; auto].
  destruct (decide (o_user_id row = uid)) as [Howner|Hother];
    [|rewrite (cancel_order_denied _ _ _ _ _ Hrow _ Hid) by done; auto].
  rewrite (cancel_order_owner _ _ _ _ _ Hrow _ Hid Howner).
  destruct (is_valid_status_transition (o_status row) "cancelled") eqn:Hvalid; [|auto].
  apply is_valid_status_transition_spec in Hvalid.
  right. exists row. auto.
Qed.

Lemma create_order_result (db : gmap N OrderRow) order_data current_user uuid4 now :
  let result := create_order order_data current_user uuid4 now db in
  (success result.1 = false ∧ result.2 = db)
  ∨ (∃ uid,
       claim_user_id current_user = Some uid
       ∧ db !! uuid4 = None
       ∧ result = (respond_ok (DataOrderId uuid4),
                   <[uuid4 := new_order uid order_data now]> db)).
Proof.
  intros result. subst result.
  destruct (claim_user_id current_user) as [uid|] eqn:Hid;
    [|rewrite create_order_bad_token by done; auto].
  destruct (existsb (fun item => negb (is_finite (price item))) (oc_items order_data))
    eqn:Hjson; [rewrite (create_order_bad_json _ _ _ _ _ _ Hid) by done; auto|].
  destruct (db !! uuid4) as [row|] eqn:Hkey.
  - rewrite (create_order_duplicate_key _ _ _ _ _ _ Hid Hjson) by congruence. auto.
  - rewrite (create_order_inserted _ _ _ _ _ _ Hid Hjson) by done. right. eauto.
Qed.

Lemma POST_v1_orders_created (db : gmap N OrderRow) body current_user uuid4 now :
  success (match (POST_v1_orders body current_user uuid4 now db).1 with
           | Json r => r
           | RequestValidationError _ => respond_error "" []
           end) = true →
  ∃ uid,
    claim_user_id current_user = Some uid
    ∧ OrderCreate_errors body = []
    ∧ db !! uuid4 = None
    ∧ POST_v1_orders body current_user uuid4 now db
      = (Json (respond_ok (DataOrderId uuid4)),
         <[uuid4 := new_order uid body now]> db).
Proof.
  unfold POST_v1_orders. destruct (OrderCreate_errors body); [|discriminate].
  pose proof (create_order_result db body current_user uuid4 now) as Hres.
  destruct (create_order body current_user uuid4 now db) as [r db']. simpl in *.
  destruct Hres as [[Hfailed _]|(uid & Hid & Hkey & [= -> ->])]; [congruence|].
  intros _. by exists uid.
Qed.

Lemma GET_v1_orders_store (db : gmap N OrderRow) current_user page size status :
  (GET_v1_orders current_user page size status db).2 = db.
Proof.
  unfold GET_v1_orders.
  destruct (Query "page" 1 (Some 1%Z) None page) as [?|p];
    destruct (Query "size" 10 (Some 1%Z) (Some 100%Z) size) as [?|s]; try reflexivity.
  pose proof (get_user_orders_store db current_user p s status) as Hstore.
  destruct (get_user_orders current_user p s status db). exact Hstore.
Qed.

Lemma serve_keeps_terminal (db : gmap N OrderRow) current_user now request order_id row :
  db !! order_id = Some row → terminal (o_status row) →
  (serve current_user now request db).2 !! order_id = Some row.
Proof.
  intros Hrow Hterm. destruct request as [body uuid4|page size status|oid status|oid]; simpl.
  - unfold POST_v1_orders. destruct (OrderCreate_errors body); [|exact Hrow].
    pose proof (create_order_result db body current_user uuid4 now) as Hres.
    destruct (create_order body current_user uuid4 now db) as [r db']. simpl in *.
    destruct Hres as [[_ ->]|(uid & _ & Hkey & [= _ ->])]; [exact Hrow|].
    rewrite lookup_insert_ne; [exact Hrow|congruence].
  - by rewrite GET_v1_orders_store.
  - unfold PUT_v1_orders.
    pose proof (update_order_result db oid (OrderUpdate_of_json status) current_user now)
      as Hres.
    destruct (update_order oid (OrderUpdate_of_json status) current_user now db)
      as [r db']. simpl in *.
    destruct Hres as [[_ ->]|[(_ & _ & ->)|(row' & s & Hrow' & _ & Htable & _ & ->)]];
      [exact Hrow|exact Hrow|].
    destruct (decide (oid = order_id)) as [->|Hne];
      [|by rewrite lookup_insert_ne].
    assert (row' = row) as -> by congruence.
    by apply transition_table_terminal with (to := s) in Hterm.
  - pose proof (cancel_order_result db oid current_user now) as Hres.
    destruct (cancel_order oid current_user now db) as [r db']. simpl in *.
    destruct Hres as [[_ ->]|(row' & Hrow' & Htable & _ & ->)]; [exact Hrow|].
    destruct (decide (oid = order_id)) as [->|Hne];
      [|by rewrite lookup_insert_ne].
    assert (row' = row) as -> by congruence.
    by apply transition_table_terminal with (to := "cancelled") in Hterm.
Qed.

(** ** Terminal statuses *)

(** C2: once the status of an order is completed or cancelled, every
    [update_order] request naming a status and every [cancel_order] request
    on it fails, by whatever caller, no request of either kind changes the
    store, and after any sequence of requests to the service the record is
    still the same, status included. *)
Theorem terminal_status_is_final (db : gmap N OrderRow) (order_id : N) (row : OrderRow) :
  db !! order_id = Some row →
  terminal (o_status row) →
  (∀ current_user now order_update,
     let result := update_order order_id order_update current_user now db in
     result.2 = db
     ∧ (truthy (ou_status order_update) ≠ None → success result.1 = false))
  ∧ (∀ current_user now,
       let result := cancel_order order_id current_user now db in
       result.2 = db ∧ success result.1 = false)
  ∧ (∀ calls, serve_all calls db !! order_id = Some row).
Proof.
  intros Hrow Hterm. split; [|split].
  - intros current_user now order_update result. subst result.
    destruct (update_order_result db order_id order_update current_user now)
      as [[Hfail ->]|[(Hnone & _ & ->)|(row' & s & Hrow' & _ & Htable & _)]].
    + auto.
    + split; [reflexivity|]. intros Hsome. by destruct Hsome.
    + assert (row' = row) as -> by congruence.
      by apply transition_table_terminal with (to := s) in Hterm.
  - intros current_user now result. subst result.
    destruct (cancel_order_result db order_id current_user now)
      as [[Hfail ->]|(row' & Hrow' & Htable & _)].
    + auto.
    + assert (row' = row) as -> by congruence.
      by apply transition_table_terminal with (to := "cancelled") in Hterm.
  - intros calls. revert db Hrow.
    induction calls as [|[[current_user now] request] calls IH]; intros db Hrow.
    + exact Hrow.
    + simpl. apply IH. by apply serve_keeps_terminal.
Qed.

Lemma terminal_status_is_final_witness :
  sample_store !! 12%N = Some (sample_order "completed" 102)
  ∧ terminal "completed"
  ∧ serve_all [(alice, 200%Z, UpdateOrderStatus 12%N (Str "in_progress"));
               (root, 201%Z, UpdateOrderStatus 12%N (Str "cancelled"));
               (alice, 202%Z, CancelOrder 12%N)] sample_store !! 12%N
    = Some (sample_order "completed" 102).
Proof.
  split; [reflexivity|]. split; [by left|].
  apply (terminal_status_is_final sample_store 12%N (sample_order "completed" 102));
    [reflexivity|by left].
Defined.

(** ** Creating an order *)










(** ** Listing *)

(** C6: a caller whose role is not admin is only ever shown orders whose
    owner is the caller, whatever the page, the size and the status filter.
    For an admin, the orders shown are stored orders that match the status
    filter (all of them when there is none), and each such order is shown on
    some page. *)
Theorem get_user_orders_scope (db : gmap N OrderRow) (current_user : TokenPayload)
    (page size : Z) (status : option string) :
  (claim_role current_user ≠ Some "admin" →
   ∀ o, o ∈ returned_orders (get_user_orders current_user page size status db).1 →
        claim_user_id current_user = Some (o_user_id o.2))
  ∧ (claim_role current_user = Some "admin" →
     ∀ uid, claim_user_id current_user = Some uid →
       let matches (o : N * OrderRow) :=
         db !! o.1 = Some o.2
         ∧ (status = None ∨ status = Some "" ∨ status = Some (o_status o.2)) in
       (∀ o, o ∈ returned_orders (get_user_orders current_user page size status db).1 →
             matches o)
       ∧ ((1 ≤ size)%Z →
          ∀ o, matches o →
            ∃ page', (1 ≤ page')%Z
              ∧ o ∈ returned_orders
                      (get_user_orders current_user page' size status db).1)).
Proof.
  split.
  - intros Hrole o Ho.
    destruct (claim_user_id current_user) as [uid|] eqn:Hid.
    + destruct (returned_orders_visible db current_user uid page size status o Hid Ho)
        as [_ [[Hadmin|Hown] _]]; congruence.
    + rewrite get_user_orders_bad_token in Ho by done. by apply elem_of_nil in Ho.
  - intros Hadmin uid Hid matches. split.
    + intros o Ho.
      destruct (returned_orders_visible db current_user uid page size status o Hid Ho)
        as [Hrow [_ Hstatus]].
      by split.
    + intros Hsize o [Hrow Hstatus].
      assert (o ∈ order_by_created_at_desc
                    (scan (listing_conds current_user uid status) db)) as Ho.
      { rewrite order_by_created_at_desc_perm. apply elem_of_scan.
        split; [exact Hrow|]. split; auto. }
      destruct (on_some_page _ _ _ Hsize Ho) as (page' & Hpage' & Hin).
      exists page'. split; [exact Hpage'|].
      rewrite (get_user_orders_page _ _ _ _ _ _ Hid) by nia. exact Hin.
Qed.

Lemma get_user_orders_scope_witness :
  claim_role root = Some "admin"
  ∧ claim_user_id root = Some 1%N
  ∧ ∃ page', (1 ≤ page')%Z
      ∧ (13%N, sample_order "cancelled" 103)
          ∈ returned_orders (get_user_orders root page' 2 (Some "cancelled") sample_store).1.
Proof.
  split; [reflexivity|]. split; [reflexivity|].
  destruct (get_user_orders_scope sample_store root 1 2 (Some "cancelled")) as [_ Hadmin].
  destruct (Hadmin eq_refl 1%N eq_refl) as [_ Hall].
  apply Hall; [lia|]. split; [reflexivity|]. right; right. reflexivity.
Defined.

(** C7, as the code has it: the orders a caller may see, with the status
    filter applied, form one list in descending order of [created_at], each
    record once. For every page >= 1 and size between 1 and 100, when the
    status filter holds no NUL and the offset (page - 1) * size is a
    [bigint], the response holds the slice of that list of length at most
    size that starts at the offset, and its total is the length of the whole
    list, whatever the page; when the filter holds NUL or the offset is not
    a [bigint], the query is refused and the answer is DATABASE_ERROR. *)
Theorem get_user_orders_pagination (db : gmap N OrderRow) (current_user : TokenPayload)
    (uid : N) (status : option string) :
  claim_user_id current_user = Some uid →
  ∃ filtered : list (N * OrderRow),
    (∀ o, o ∈ filtered ↔ db !! o.1 = Some o.2 ∧ visible current_user uid status o)
    ∧ NoDup filtered
    ∧ StronglySorted newer_first filtered
    ∧ ∀ page size, (1 ≤ page)%Z → (1 ≤ size ≤ 100)%Z →
        let offset := ((page - 1) * size)%Z in
        let slice := take (Z.to_nat size) (drop (Z.to_nat offset) filtered) in
        (passable status = true → (offset ≤ BIGINT_MAX)%Z →
         Postgres.get_user_orders current_user page size status db
         = (respond_ok (DataOrders slice (Z.of_nat (length filtered)) page size), db)
         ∧ (Z.of_nat (length slice) ≤ size)%Z)
        ∧ (passable status = false ∨ (BIGINT_MAX < offset)%Z →
           Postgres.get_user_orders current_user page size status db
           = (respond_error "DATABASE_ERROR" [Text "Failed to get orders"], db)).
Proof.
  intros Hid.
  exists (order_by_created_at_desc (scan (listing_conds current_user uid status) db)).
  split; [|split; [|split]].
  - intros o. rewrite order_by_created_at_desc_perm. apply elem_of_scan.
  - rewrite order_by_created_at_desc_perm. apply NoDup_scan.
  - apply order_by_created_at_desc_sorted.
  - intros page size Hpage Hsize offset slice. subst offset slice. split.
    + intros Hstatus Hoffset. split.
      * rewrite (Postgres_get_user_orders_page _ _ _ _ _ _ Hid Hstatus)
          by (unfold BIGINT_MAX in *; nia).
        by rewrite (Permutation_length (order_by_created_at_desc_perm _)).
      * rewrite length_take. lia.
    + intros Hrefused. apply (Postgres_get_user_orders_refused _ _ _ _ _ _ Hid).
      destruct Hrefused as [Hstatus|Hoffset]; [by left|]. right; right.
      unfold in_bigint. apply andb_false_iff. right. apply Z.leb_gt. exact Hoffset.
Qed.

Lemma get_user_orders_pagination_witness :
  claim_user_id alice = Some 7%N
  ∧ ∃ filtered : list (N * OrderRow),
      StronglySorted newer_first filtered
      ∧ Postgres.get_user_orders alice 2 3 None sample_store
        = (respond_ok (DataOrders (take 3 (drop 3 filtered))
                      (Z.of_nat (length filtered)) 2 3), sample_store).
Proof.
  split; [reflexivity|].
  destruct (get_user_orders_pagination sample_store alice 7%N None eq_refl)
    as (filtered & _ & _ & Hsorted & Hpage).
  exists filtered. split; [exact Hsorted|].
  destruct (Hpage 2%Z 3%Z) as [Hpassed _]; [lia|lia|].
  destruct Hpassed as [Hresp _]; [reflexivity|unfold BIGINT_MAX; lia|]. exact Hresp.
Defined.

(** C7 as stated fails: page and size are valid, but the offset is past the
    largest [bigint] and the query is refused; so is a status filter that
    holds NUL. *)
Lemma get_user_orders_refuses_far_page :
  (1 ≤ 9223372036854775809)%Z ∧ (1 ≤ 1 ≤ 100)%Z
  ∧ Postgres.get_user_orders alice 9223372036854775809 1 None sample_store
    = (respond_error "DATABASE_ERROR" [Text "Failed to get orders"], sample_store)
  ∧ Postgres.get_user_orders alice 1 10 (Some (String "000" EmptyString)) sample_store
    = (respond_error "DATABASE_ERROR" [Text "Failed to get orders"], sample_store).
Proof.
  split; [lia|]. split; [lia|]. split; reflexivity.
Qed.

(** C9: a call with page < 1, size < 1 or size > 100 is refused with a
    validation error naming the offending parameters; the answer is the
    same whatever the store holds, which is left as it is, and no listing
    for adjusted values is produced. *)
Theorem get_user_orders_rejects_out_of_range (current_user : TokenPayload)
    (page size : Z) (status : option string) :
  (page < 1 ∨ size < 1 ∨ 100 < size)%Z →
  ∃ errors, errors ≠ []
    ∧ ∀ db : gmap N OrderRow,
        GET_v1_orders current_user (Some page) (Some size) status db
        = (RequestValidationError errors, db).
Proof.
  intros Hrange. unfold GET_v1_orders, Query.
  destruct (Z.ltb_spec page 1), (Z.ltb_spec size 1), (Z.ltb_spec 100 size);
    try lia; simpl; eexists; (split; [|intros db; reflexivity]); discriminate.
Qed.

Lemma get_user_orders_rejects_out_of_range_witness :
  (0 < 1 ∨ 101 < 1 ∨ 100 < 101)%Z
  ∧ ∃ errors, errors ≠ []
      ∧ ∀ db : gmap N OrderRow,
          GET_v1_orders alice (Some 0%Z) (Some 101%Z) None db
          = (RequestValidationError errors, db).
Proof.
  split; [left; lia|].
  apply (get_user_orders_rejects_out_of_range alice 0 101 None). left. lia.
Defined.

(** * Further properties of the orders service *)

(** ** Reading one order *)

#[global] Hint Unfold get_order get_order_body : handlers.

Lemma get_order_found (db : gmap N OrderRow) order_id row current_user uid :
  db !! order_id = Some row →
  claim_user_id current_user = Some uid →
  get_order order_id current_user db
  = (if bool_decide (o_user_id row ≠ uid)
        && bool_decide (claim_role current_user ≠ Some "admin")
     then order_error "ACCESS_DENIED" [Text "Access to this order denied"]
     else order_found (shown order_id row), db).
Proof.
  intros Hrow Hid. enter_handler. known Hrow. known Hid.
  by destruct (bool_decide (o_user_id row ≠ uid) && _).
Qed.

Lemma get_order_allowed (db : gmap N OrderRow) order_id row current_user uid :
  db !! order_id = Some row →
  claim_user_id current_user = Some uid →
  o_user_id row = uid ∨ claim_role current_user = Some "admin" →
  get_order order_id current_user db = (order_found (shown order_id row), db).
Proof.
  intros Hrow Hid Hauth. rewrite (get_order_found _ _ _ _ _ Hrow Hid).
  destruct Hauth as [Howner|Hadmin].
  - by rewrite (bool_decide_eq_false_2 (o_user_id row ≠ uid)) by auto.
  - rewrite (bool_decide_eq_false_2 (claim_role current_user ≠ Some "admin")) by auto.
    by rewrite andb_false_r.
Qed.

(** X1: [get_order] on a stored order, for a caller whose token carries a
    UUID, succeeds exactly when the caller is the owner or has the role
    admin; it then shows the stored record, all seven columns as they are.
    Any other caller gets [ACCESS_DENIED]. The store is never changed. *)
Theorem get_order_access (db : gmap N OrderRow) (order_id : N) (row : OrderRow)
    (current_user : TokenPayload) (uid : N) :
  db !! order_id = Some row →
  claim_user_id current_user = Some uid →
  let result := get_order order_id current_user db in
  (reply_success result.1 = true
     ↔ o_user_id row = uid ∨ claim_role current_user = Some "admin")
  ∧ (o_user_id row = uid ∨ claim_role current_user = Some "admin" →
       result.1 = order_found (shown order_id row))
  ∧ (o_user_id row ≠ uid → claim_role current_user ≠ Some "admin" →
       result.1 = order_error "ACCESS_DENIED" [Text "Access to this order denied"])
  ∧ result.2 = db.
Proof.
  intros Hrow Hid result. subst result.
  rewrite (get_order_found _ _ _ _ _ Hrow Hid).
  destruct (decide (o_user_id row = uid)) as [Howner|Hother].
  - rewrite (bool_decide_eq_false_2 (o_user_id row ≠ uid)) by auto. simpl.
    split; [tauto|]. split; [reflexivity|]. split; [congruence|reflexivity].
  - rewrite (bool_decide_eq_true_2 (o_user_id row ≠ uid)) by auto. simpl.
    destruct (decide (claim_role current_user = Some "admin")) as [Hadmin|Hrole].
    + rewrite bool_decide_eq_false_2 by auto. simpl.
      split; [tauto|]. split; [reflexivity|]. split; [congruence|reflexivity].
    + rewrite bool_decide_eq_true_2 by auto. simpl.
      split; [split; [discriminate|tauto]|]. split; [tauto|].
      split; [reflexivity|reflexivity].
Qed.

Lemma get_order_access_witness :
  sample_store !! 11%N = Some (sample_order "in_progress" 101)
  ∧ claim_user_id root = Some 1%N
  ∧ (get_order 11%N root sample_store).1
    = order_found (shown 11%N (sample_order "in_progress" 101)).
Proof.
  split; [reflexivity|]. split; [reflexivity|].
  apply (get_order_access sample_store 11%N (sample_order "in_progress" 101) root 1%N);
    [reflexivity|reflexivity|]. right. reflexivity.
Defined.

Lemma get_order_store (db : gmap N OrderRow) order_id current_user :
  (get_order order_id current_user db).2 = db.
Proof.
  enter_handler. destruct (db !! order_id) as [row|]; [|reflexivity]. simpl.
  destruct (claim_user_id current_user) as [uid|]; [|reflexivity]. simpl.
  destruct (bool_decide (o_user_id row ≠ uid) && _); reflexivity.
Qed.

Lemma get_order_not_found (db : gmap N OrderRow) order_id current_user :
  db !! order_id = None →
  get_order order_id current_user db
  = (order_error "ORDER_NOT_FOUND" [Text "Order not found"], db).
Proof. intros Hrow. enter_handler. rewrite Hrow. reflexivity. Qed.

(** X2: an id that is not in the store is answered with [ORDER_NOT_FOUND] by
    [get_order], [update_order] and [cancel_order] alike, for every caller
    (also one whose token carries no usable id) and every requested status:
    the lookup comes before any look at the caller. Nothing is written. *)
Theorem missing_order_is_reported_first (db : gmap N OrderRow) (order_id : N)
    (current_user : TokenPayload) (order_update : OrderUpdate) (now : Z) :
  db !! order_id = None →
  get_order order_id current_user db
  = (order_error "ORDER_NOT_FOUND" [Text "Order not found"], db)
  ∧ update_order order_id order_update current_user now db
    = (respond_error "ORDER_NOT_FOUND" [Text "Order not found"], db)
  ∧ cancel_order order_id current_user now db
    = (respond_error "ORDER_NOT_FOUND" [Text "Order not found"], db).
Proof.
  intros Hrow. split; [by apply get_order_not_found|].
  split; [by apply update_order_not_found|by apply cancel_order_not_found].
Qed.

Lemma missing_order_is_reported_first_witness :
  sample_store !! 99%N = None
  ∧ cancel_order 99%N {| claim_user_id := None; claim_role := None |} 200 sample_store
    = (respond_error "ORDER_NOT_FOUND" [Text "Order not found"], sample_store).
Proof.
  split; [reflexivity|].
  apply (missing_order_is_reported_first sample_store 99%N
           {| claim_user_id := None; claim_role := None |} {| ou_status := None |} 200).
  reflexivity.
Defined.

(** ** A status that is not one of the four *)

(** X3: when the owner or an admin asks for a non-empty status that is not
    one of created, in_progress, completed, cancelled, [update_order]
    answers [INVALID_STATUS] with the list of the four, whatever the current
    status of the order (a terminal one included), and writes nothing. *)
Theorem update_order_unknown_status (db : gmap N OrderRow) (order_id : N)
    (row : OrderRow) (current_user : TokenPayload) (uid : N)
    (new_status : string) (now : Z) :
  db !! order_id = Some row →
  claim_user_id current_user = Some uid →
  o_user_id row = uid ∨ claim_role current_user = Some "admin" →
  new_status ≠ "" →
  new_status ∉ ["created"; "in_progress"; "completed"; "cancelled"] →
  update_order order_id {| ou_status := Some new_status |} current_user now db
  = (respond_error "INVALID_STATUS"
       [Text "Invalid status. Allowed: ";
        FieldList ["created"; "in_progress"; "completed"; "cancelled"]], db).
Proof.
  intros Hrow Hid Hauth Hne Hunknown.
  rewrite (update_order_allowed _ _ _ _ _ _ Hrow _ Hid Hauth). cbn [ou_status].
  assert (truthy (Some new_status) = Some new_status) as ->
    by (apply truthy_Some; auto).
  assert (py_in new_status ORDER_STATUSES = false) as ->
    by (by apply bool_decide_eq_false_2).
  reflexivity.
Qed.

Lemma update_order_unknown_status_witness :
  sample_store !! 12%N = Some (sample_order "completed" 102)
  ∧ claim_user_id alice = Some 7%N
  ∧ update_order 12%N {| ou_status := Some "shipped" |} alice 200 sample_store
    = (respond_error "INVALID_STATUS"
         [Text "Invalid status. Allowed: ";
          FieldList ["created"; "in_progress"; "completed"; "cancelled"]], sample_store).
Proof.
  split; [reflexivity|]. split; [reflexivity|].
  apply (update_order_unknown_status sample_store 12%N (sample_order "completed" 102)
           alice 7%N "shipped" 200); [reflexivity|reflexivity|by left|discriminate|].
  rewrite !elem_of_cons, elem_of_nil. intros [H|[H|[H|[H|[]]]]]; discriminate H.
Defined.

(** ** Cancelling through an update *)

(** X4: for the owner, cancelling and updating to cancelled are the same
    operation on the store: [cancel_order] and [update_order] with status
    cancelled succeed in the same cases and leave the same store; only the
    wording of the answers differs. *)
Theorem cancel_is_update_to_cancelled (db : gmap N OrderRow) (order_id : N)
    (row : OrderRow) (current_user : TokenPayload) (now : Z) :
  db !! order_id = Some row →
  claim_user_id current_user = Some (o_user_id row) →
  let cancelled := cancel_order order_id current_user now db in
  let updated :=
    update_order order_id {| ou_status := Some "cancelled" |} current_user now db in
  success cancelled.1 = success updated.1 ∧ cancelled.2 = updated.2.
Proof.
  intros Hrow Hid cancelled updated. subst cancelled updated.
  rewrite (cancel_order_owner _ _ _ _ _ Hrow _ Hid eq_refl).
  rewrite (update_order_allowed _ _ _ _ _ _ Hrow _ Hid (or_introl eq_refl)).
  cbn [ou_status].
  change (truthy (Some "cancelled")) with (Some "cancelled").
  change (py_in "cancelled" ORDER_STATUSES) with true. cbn [negb].
  destruct (is_valid_status_transition (o_status row) "cancelled"); split; reflexivity.
Qed.

Lemma cancel_is_update_to_cancelled_witness :
  sample_store !! 10%N = Some (sample_order "created" 100)
  ∧ claim_user_id alice = Some 7%N
  ∧ (cancel_order 10%N alice 200 sample_store).2
    = (update_order 10%N {| ou_status := Some "cancelled" |} alice 200 sample_store).2.
Proof.
  split; [reflexivity|]. split; [reflexivity|].
  apply (cancel_is_update_to_cancelled sample_store 10%N (sample_order "created" 100)
           alice 200); reflexivity.
Defined.

(** X5: the owner-only rule of [cancel_order] does not bind [update_order]:
    an admin who is not the owner is refused by [cancel_order] with
    [ACCESS_DENIED], yet the same admin moves the same created or
    in_progress order to cancelled with [update_order]. *)
Theorem admin_cancels_through_update (db : gmap N OrderRow) (order_id : N)
    (row : OrderRow) (current_user : TokenPayload) (uid : N) (now : Z) :
  db !! order_id = Some row →
  claim_user_id current_user = Some uid →
  claim_role current_user = Some "admin" →
  uid ≠ o_user_id row →
  o_status row = "created" ∨ o_status row = "in_progress" →
  cancel_order order_id current_user now db
  = (respond_error "ACCESS_DENIED" [Text "Only order owner can cancel the order"], db)
  ∧ update_order order_id {| ou_status := Some "cancelled" |} current_user now db
    = (respond_ok (DataMessage "Order updated successfully"),
       <[order_id := set_status "cancelled" now row]> db).
Proof.
  intros Hrow Hid Hadmin Hother Hstatus. split.
  - apply (cancel_order_denied _ _ _ _ _ Hrow _ Hid). congruence.
  - rewrite (update_order_allowed _ _ _ _ _ _ Hrow _ Hid (or_intror Hadmin)).
    cbn [ou_status].
    change (truthy (Some "cancelled")) with (Some "cancelled").
    change (py_in "cancelled" ORDER_STATUSES) with true. cbn [negb].
    assert (is_valid_status_transition (o_status row) "cancelled" = true) as ->;
      [|reflexivity].
    apply is_valid_status_transition_spec. unfold transition_table.
    destruct Hstatus as [->| ->]; auto.
Qed.

Lemma admin_cancels_through_update_witness :
  sample_store !! 11%N = Some (sample_order "in_progress" 101)
  ∧ claim_user_id root = Some 1%N
  ∧ success (cancel_order 11%N root 200 sample_store).1 = false
  ∧ success
      (update_order 11%N {| ou_status := Some "cancelled" |} root 200 sample_store).1
    = true.
Proof.
  split; [reflexivity|]. split; [reflexivity|].
  destruct (admin_cancels_through_update sample_store 11%N
              (sample_order "in_progress" 101) root 1%N 200) as [Hcancel Hupdate];
    [reflexivity|reflexivity|reflexivity|discriminate|by right|].
  rewrite Hcancel, Hupdate. split; reflexivity.
Defined.

(** ** Writing and reading back *)

(** X6: when [POST /v1/orders] answers with success, the generated id was
    new to the store and the order is read back by its creator as it was
    sent: [get_order] under the returned id shows the caller as owner, the
    items and the total of the body, status created and both timestamps at
    the time of the insert; and, the table being one that [bigint] counts,
    the order is on some page of the creator's own listing, whatever the
    size of the pages. *)
Theorem created_order_is_read_back (db : gmap N OrderRow) (body : OrderCreate)
    (current_user : TokenPayload) (uid : N) (uuid4 : N) (now : Z) :
  let created := POST_v1_orders body current_user uuid4 now db in
  let row := {| o_user_id := uid; o_items := oc_items body;
                o_total_amount := total_amount body; o_status := "created";
                o_created_at := now; o_updated_at := now |} in
  claim_user_id current_user = Some uid →
  created.1 = Json (respond_ok (DataOrderId uuid4)) →
  db !! uuid4 = None
  ∧ created.2 = <[uuid4 := row]> db
  ∧ (get_order uuid4 current_user created.2).1 = order_found (shown uuid4 row)
  ∧ ((row_count db < BIGINT_MAX)%Z →
     ∀ size, (1 ≤ size ≤ BIGINT_MAX)%Z →
       ∃ page, (1 ≤ page)%Z
         ∧ (uuid4, row)
             ∈ returned_orders
                 (Postgres.get_user_orders current_user page size None created.2).1).
Proof.
  intros created row Hid Hcreated. subst created.
  destruct (POST_v1_orders_created db body current_user uuid4 now)
    as (uid' & Hid' & _ & Hkey & Hpost); [by rewrite Hcreated|].
  assert (uid' = uid) as -> by congruence.
  rewrite Hpost. cbn [fst snd]. change (new_order uid body now) with row.
  assert (<[uuid4 := row]> db !! uuid4 = Some row) as Hrow by apply lookup_insert_eq.
  split; [exact Hkey|]. split; [reflexivity|]. split.
  - rewrite (get_order_allowed _ _ _ _ _ Hrow Hid) by (by left). reflexivity.
  - intros Hcount size Hsize.
    set (filtered := order_by_created_at_desc
                       (scan (listing_conds current_user uid None) (<[uuid4 := row]> db))).
    assert ((uuid4, row) ∈ filtered) as Hin.
    { unfold filtered. rewrite order_by_created_at_desc_perm. apply elem_of_scan.
      split; [exact Hrow|]. split; [right; reflexivity|left; reflexivity]. }
    assert (Z.of_nat (length filtered) ≤ BIGINT_MAX)%Z as Hlength.
    { unfold filtered. rewrite (Permutation_length (order_by_created_at_desc_perm _)).
      unfold scan. pose proof (length_filter (fun o => where_ (listing_conds current_user uid None) o)
                   (map_to_list (<[uuid4 := row]> db))) as Hle.
      rewrite length_map_to_list, (map_size_insert_None _ _ _ Hkey) in Hle.
      unfold row_count in Hcount. lia. }
    destruct (on_some_page _ _ _ (proj1 Hsize) Hin) as (page & Hpage & Hon).
    exists page. split; [exact Hpage|].
    assert (Z.to_nat ((page - 1) * size) < length filtered)%nat as Hoffset.
    { destruct (decide (Z.to_nat ((page - 1) * size) < length filtered)%nat)
        as [|Hpast]; [done|].
      rewrite drop_ge, take_nil in Hon by lia. by apply elem_of_nil in Hon. }
    rewrite (Postgres_get_user_orders_page _ _ _ _ _ _ Hid) by (done || nia).
    exact Hon.
Qed.

Lemma created_order_is_read_back_witness :
  claim_user_id alice = Some 7%N
  ∧ (POST_v1_orders two_widgets alice 20%N 200 sample_store).1
    = Json (respond_ok (DataOrderId 20%N))
  ∧ r_status
      <$> reply_order
            (get_order 20%N alice (POST_v1_orders two_widgets alice 20%N 200 sample_store).2).1
    = Some "created".
Proof.
  split; [reflexivity|]. split; [reflexivity|].
  destruct (created_order_is_read_back sample_store two_widgets alice 7%N 20%N 200)
    as (_ & _ & Hread & _); [reflexivity|reflexivity|].
  rewrite Hread. reflexivity.
Defined.

(** X7: after a successful [update_order] naming the status [s] at time
    [now], the same caller reads the order back with status [s] and
    [updated_at] = [now]; owner, items, total and [created_at] are those of
    before. *)
Theorem updated_status_is_read_back (db : gmap N OrderRow) (order_id : N)
    (row : OrderRow) (current_user : TokenPayload) (new_status : string) (now : Z) :
  db !! order_id = Some row →
  new_status ≠ "" →
  let updated :=
    update_order order_id {| ou_status := Some new_status |} current_user now db in
  success updated.1 = true →
  (get_order order_id current_user updated.2).1
  = order_found
      {| r_id := order_id; r_user_id := o_user_id row; r_items := o_items row;
         r_total_amount := o_total_amount row; r_status := new_status;
         r_created_at := o_created_at row; r_updated_at := now |}.
Proof.
  intros Hrow Hne updated Hok. subst updated.
  destruct (claim_user_id current_user) as [uid|] eqn:Hid;
    [|by rewrite (update_order_bad_token _ _ _ _ _ _ Hrow) in Hok].
  destruct (decide (o_user_id row = uid ∨ claim_role current_user = Some "admin"))
    as [Hauth|Hno];
    [|by rewrite (update_order_denied _ _ _ _ _ _ Hrow _ Hid) in Hok by tauto].
  rewrite (update_order_allowed _ _ _ _ _ _ Hrow _ Hid Hauth) in Hok |- *.
  cbn [ou_status] in Hok |- *.
  assert (truthy (Some new_status) = Some new_status) as Htruthy
    by (apply truthy_Some; auto).
  rewrite Htruthy in Hok |- *.
  destruct (py_in new_status ORDER_STATUSES); [|discriminate Hok].
  cbn [negb] in Hok |- *.
  destruct (is_valid_status_transition (o_status row) new_status); [|discriminate Hok].
  cbn [negb snd].
  rewrite (get_order_allowed _ order_id (set_status new_status now row) current_user uid);
    [reflexivity|apply lookup_insert_eq|exact Hid|exact Hauth].
Qed.

Lemma updated_status_is_read_back_witness :
  sample_store !! 10%N = Some (sample_order "created" 100)
  ∧ success (update_order 10%N {| ou_status := Some "in_progress" |} alice 200
               sample_store).1 = true
  ∧ r_updated_at
      <$> reply_order
            (get_order 10%N alice
               (update_order 10%N {| ou_status := Some "in_progress" |} alice 200
                  sample_store).2).1
    = Some 200%Z.
Proof.
  split; [reflexivity|]. split; [reflexivity|].
  rewrite (updated_status_is_read_back sample_store 10%N (sample_order "created" 100)
             alice "in_progress" 200); [reflexivity|reflexivity|discriminate|reflexivity].
Defined.

(** ** What a run of the service keeps *)

Lemma transition_makes_progress (from to : string) :
  transition_table from to → progress from < progress to.
Proof.
  unfold transition_table.
  intros [[-> [->| ->]]|[-> [->| ->]]]; vm_compute; lia.
Qed.

Lemma transitions_make_progress (from to : string) :
  tc transition_table from to → progress from < progress to.
Proof.
  induction 1 as [from to Hstep|from mid to Hstep _ IH].
  - by apply transition_makes_progress.
  - apply transition_makes_progress in Hstep. lia.
Qed.

Lemma set_status_same_order (row : OrderRow) new_status now :
  same_order row (set_status new_status now row).
Proof. unfold same_order. simpl. auto. Qed.

Lemma same_order_trans (a b c : OrderRow) :
  same_order a b → same_order b c → same_order a c.
Proof. unfold same_order. intros (?&?&?&?) (?&?&?&?). repeat split; congruence. Qed.

Lemma serve_history (db : gmap N OrderRow) current_user now request order_id row :
  db !! order_id = Some row →
  ∃ row', (serve current_user now request db).2 !! order_id = Some row'
    ∧ same_order row row'
    ∧ (row' = row ∨ transition_table (o_status row) (o_status row')).
Proof.
  intros Hrow.
  assert (same_order row row) as Hsame by (unfold same_order; auto).
  destruct request as [body uuid4|page size status|oid status|oid]; simpl.
  - unfold POST_v1_orders. destruct (OrderCreate_errors body); [|eauto].
    pose proof (create_order_result db body current_user uuid4 now) as Hres.
    destruct (create_order body current_user uuid4 now db) as [r db']. simpl in *.
    destruct Hres as [[_ ->]|(uid & _ & Hkey & [= _ ->])]; [eauto|].
    exists row. rewrite lookup_insert_ne by congruence. auto.
  - rewrite GET_v1_orders_store. eauto.
  - unfold PUT_v1_orders.
    pose proof (update_order_result db oid (OrderUpdate_of_json status) current_user now)
      as Hres.
    destruct (update_order oid (OrderUpdate_of_json status) current_user now db)
      as [r db']. simpl in *.
    destruct Hres as [[_ ->]|[(_ & _ & ->)|(row' & s & Hrow' & _ & Htable & _ & ->)]];
      [eauto|eauto|].
    destruct (decide (oid = order_id)) as [->|Hne].
    + assert (row' = row) as -> by congruence.
      exists (set_status s now row). rewrite lookup_insert_eq.
      split; [reflexivity|]. split; [apply set_status_same_order|by right].
    + exists row. rewrite lookup_insert_ne by done. auto.
  - pose proof (cancel_order_result db oid current_user now) as Hres.
    destruct (cancel_order oid current_user now db) as [r db']. simpl in *.
    destruct Hres as [[_ ->]|(row' & Hrow' & Htable & _ & ->)]; [eauto|].
    destruct (decide (oid = order_id)) as [->|Hne].
    + assert (row' = row) as -> by congruence.
      exists (set_status "cancelled" now row). rewrite lookup_insert_eq.
      split; [reflexivity|]. split; [apply set_status_same_order|by right].
    + exists row. rewrite lookup_insert_ne by done. auto.
Qed.

Lemma serve_all_history (calls : list (TokenPayload * Z * Request))
    (db : gmap N OrderRow) order_id row :
  db !! order_id = Some row →
  ∃ row', serve_all calls db !! order_id = Some row'
    ∧ same_order row row'
    ∧ (row' = row ∨ tc transition_table (o_status row) (o_status row')).
Proof.
  revert db row. induction calls as [|[[current_user now] request] calls IH];
    intros db row Hrow.
  - exists row. unfold same_order. simpl. auto 8.
  - simpl.
    destruct (serve_history db current_user now request order_id row Hrow)
      as (mid & Hmid & Hsame & Hstep).
    destruct (IH _ _ Hmid) as (row' & Hrow' & Hsame' & Hpath).
    exists row'. split; [exact Hrow'|]. split; [by eapply same_order_trans|].
    destruct Hstep as [->|Hstep]; [exact Hpath|]. right.
    destruct Hpath as [->|Hpath]; [by apply tc_once|by eapply tc_l].
Qed.

(** X8: no run of requests (create, list, update, cancel, by any callers)
    removes an order or changes its owner, its items, its total or its
    [created_at]. *)
Theorem orders_are_write_once (calls : list (TokenPayload * Z * Request))
    (db : gmap N OrderRow) (order_id : N) (row : OrderRow) :
  db !! order_id = Some row →
  ∃ row', serve_all calls db !! order_id = Some row'
    ∧ o_user_id row' = o_user_id row
    ∧ o_items row' = o_items row
    ∧ o_total_amount row' = o_total_amount row
    ∧ o_created_at row' = o_created_at row.
Proof.
  intros Hrow.
  destruct (serve_all_history calls db order_id row Hrow)
    as (row' & Hrow' & (?&?&?&?) & _).
  exists row'. auto.
Qed.

Lemma orders_are_write_once_witness :
  sample_store !! 10%N = Some (sample_order "created" 100)
  ∧ ∃ row',
      serve_all [(root, 200%Z, UpdateOrderStatus 10%N (Str "in_progress"));
                 (alice, 201%Z, CancelOrder 10%N);
                 (bob, 202%Z, CreateOrder two_widgets 10%N)] sample_store !! 10%N
      = Some row'
      ∧ o_user_id row' = 7%N.
Proof.
  split; [reflexivity|].
  destruct (orders_are_write_once
              [(root, 200%Z, UpdateOrderStatus 10%N (Str "in_progress"));
               (alice, 201%Z, CancelOrder 10%N);
               (bob, 202%Z, CreateOrder two_widgets 10%N)]
              sample_store 10%N (sample_order "created" 100) eq_refl)
    as (row' & Hrow' & Howner & _).
  exists row'. split; [exact Hrow'|exact Howner].
Defined.

(** X9: over any run of requests the status of an order moves only along
    the transition table, a positive number of steps or none at all; when
    the status at the end is the one at the start, nothing of the record has
    changed, [updated_at] included. *)
Theorem status_moves_along_the_table (calls : list (TokenPayload * Z * Request))
    (db : gmap N OrderRow) (order_id : N) (row : OrderRow) :
  db !! order_id = Some row →
  ∃ row', serve_all calls db !! order_id = Some row'
    ∧ (row' = row ∨ tc transition_table (o_status row) (o_status row'))
    ∧ (o_status row' = o_status row → row' = row).
Proof.
  intros Hrow.
  destruct (serve_all_history calls db order_id row Hrow) as (row' & Hrow' & _ & Hpath).
  exists row'. split; [exact Hrow'|]. split; [exact Hpath|].
  intros Hsame. destruct Hpath as [->|Hpath]; [reflexivity|].
  apply transitions_make_progress in Hpath. rewrite Hsame in Hpath. lia.
Qed.

Lemma status_moves_along_the_table_witness :
  sample_store !! 10%N = Some (sample_order "created" 100)
  ∧ ∃ row',
      serve_all [(alice, 200%Z, UpdateOrderStatus 10%N (Str "in_progress"));
                 (alice, 201%Z, UpdateOrderStatus 10%N (Str "completed"))]
        sample_store !! 10%N = Some row'
      ∧ (row' = sample_order "created" 100
         ∨ tc transition_table "created" (o_status row')).
Proof.
  split; [reflexivity|].
  destruct (status_moves_along_the_table
              [(alice, 200%Z, UpdateOrderStatus 10%N (Str "in_progress"));
               (alice, 201%Z, UpdateOrderStatus 10%N (Str "completed"))]
              sample_store 10%N (sample_order "created" 100) eq_refl)
    as (row' & Hrow' & Hpath & _).
  exists row'. split; [exact Hrow'|exact Hpath].
Defined.

(** ** A token without a usable user id *)

(** X10: when the token carries no [user_id] that is the text of a UUID,
    every handler that gets as far as reading it answers [DATABASE_ERROR]
    and writes nothing: creating, listing, and reading, updating or
    cancelling a stored order, whatever the role in the token. *)
Theorem token_without_user_id (db : gmap N OrderRow) (current_user : TokenPayload)
    (order_id : N) (row : OrderRow) (now : Z) :
  claim_user_id current_user = None →
  db !! order_id = Some row →
  (∀ body uuid4,
     create_order body current_user uuid4 now db
     = (respond_error "DATABASE_ERROR"
          [Text "Order creation failed: "; FieldExn UUID_ValueError], db))
  ∧ (∀ page size status,
       get_user_orders current_user page size status db
       = (respond_error "DATABASE_ERROR" [Text "Failed to get orders"], db))
  ∧ get_order order_id current_user db
    = (order_error "DATABASE_ERROR" [Text "Failed to get order"], db)
  ∧ (∀ order_update,
       update_order order_id order_update current_user now db
       = (respond_error "DATABASE_ERROR" [Text "Failed to update order"], db))
  ∧ cancel_order order_id current_user now db
    = (respond_error "DATABASE_ERROR" [Text "Failed to cancel order"], db).
Proof.
  intros Hid Hrow. split; [|split; [|split; [|split]]].
  - intros body uuid4. by apply create_order_bad_token.
  - intros page size status. by apply get_user_orders_bad_token.
  - enter_handler. known Hrow. rewrite Hid. reflexivity.
  - intros order_update. by apply (update_order_bad_token _ _ _ _ _ _ Hrow).
  - by apply (cancel_order_bad_token _ _ _ _ _ Hrow).
Qed.

Lemma token_without_user_id_witness :
  claim_user_id {| claim_user_id := None; claim_role := Some "admin" |} = None
  ∧ sample_store !! 10%N = Some (sample_order "created" 100)
  ∧ cancel_order 10%N {| claim_user_id := None; claim_role := Some "admin" |} 200
      sample_store
    = (respond_error "DATABASE_ERROR" [Text "Failed to cancel order"], sample_store).
Proof.
  split; [reflexivity|]. split; [reflexivity|].
  apply (token_without_user_id sample_store
           {| claim_user_id := None; claim_role := Some "admin" |}
           10%N (sample_order "created" 100) 200); reflexivity.
Defined.

(** ** Pages *)

Lemma length_listing (db : gmap N OrderRow) conds :
  (Z.of_nat (length (order_by_created_at_desc (scan conds db))) ≤ row_count db)%Z.
Proof.
  rewrite (Permutation_length (order_by_created_at_desc_perm _)). unfold scan, row_count.
  pose proof (length_filter (fun o => where_ conds o) (map_to_list db)) as Hle.
  rewrite length_map_to_list in Hle. lia.
Qed.

Lemma first_pages_take (db : gmap N OrderRow) current_user uid size status k :
  claim_user_id current_user = Some uid → (1 ≤ size ≤ BIGINT_MAX)%Z →
  passable status = true → (row_count db ≤ BIGINT_MAX)%Z →
  first_pages current_user size status db k
  = take (k * Z.to_nat size)
      (order_by_created_at_desc (scan (listing_conds current_user uid status) db)).
Proof.
  intros Hid Hsize Hstatus Hcount. unfold first_pages.
  induction k as [|k IH]; [reflexivity|].
  rewrite seq_S, fmap_app, concat_app, IH. simpl. rewrite app_nil_r.
  pose proof (length_listing db (listing_conds current_user uid status)) as Hlength.
  destruct (Z_le_dec ((Z.of_nat (S k) - 1) * size) BIGINT_MAX) as [Hoffset|Hoffset].
  - rewrite (Postgres_get_user_orders_page _ _ _ _ _ _ Hid Hstatus) by lia.
    cbn [fst returned_orders data respond_ok].
    replace (Z.to_nat ((Z.of_nat (S k) - 1) * size)) with (k * Z.to_nat size)%nat by nia.
    rewrite take_take_drop. f_equal. lia.
  - rewrite (Postgres_get_user_orders_refused _ _ _ _ _ _ Hid).
    + cbn [fst returned_orders data respond_error]. rewrite app_nil_r.
      rewrite !take_ge; [reflexivity|nia|nia].
    + right; right. unfold in_bigint. apply andb_false_iff. right. apply Z.leb_gt. lia.
Qed.

(** X11: the pages of a listing follow one another without gap or overlap,
    for a filter that holds no NUL and a table that [bigint] counts: pages
    1 to k, put end to end, are the first k * size orders of the one sorted
    list of the orders the caller may see, so no order shows twice, and all
    of them show once k * size reaches the total. A page that starts at or
    past the total shows no order; while its offset is a [bigint] it
    reports the same total. *)
Theorem pages_follow_one_another (db : gmap N OrderRow) (current_user : TokenPayload)
    (uid : N) (size : Z) (status : option string) :
  claim_user_id current_user = Some uid →
  (1 ≤ size ≤ BIGINT_MAX)%Z →
  passable status = true →
  (row_count db ≤ BIGINT_MAX)%Z →
  ∃ filtered : list (N * OrderRow),
    (∀ o, o ∈ filtered ↔ db !! o.1 = Some o.2 ∧ visible current_user uid status o)
    ∧ (∀ k : nat, first_pages current_user size status db k
            = take (k * Z.to_nat size) filtered)
    ∧ (∀ k, NoDup (first_pages current_user size status db k))
    ∧ (∀ k : nat, (length filtered ≤ k * Z.to_nat size)%nat →
            first_pages current_user size status db k = filtered)
    ∧ (∀ page, (1 ≤ page)%Z → (Z.of_nat (length filtered) ≤ (page - 1) * size)%Z →
         returned_orders (Postgres.get_user_orders current_user page size status db).1
         = []
         ∧ (((page - 1) * size ≤ BIGINT_MAX)%Z →
            Postgres.get_user_orders current_user page size status db
            = (respond_ok (DataOrders [] (Z.of_nat (length filtered)) page size), db))).
Proof.
  intros Hid Hsize Hstatus Hcount.
  set (filtered := order_by_created_at_desc
                     (scan (listing_conds current_user uid status) db)).
  assert (NoDup filtered) as Hnodup.
  { unfold filtered. rewrite order_by_created_at_desc_perm. apply NoDup_scan. }
  exists filtered. split; [|split; [|split; [|split]]].
  - intros o. unfold filtered. rewrite order_by_created_at_desc_perm. apply elem_of_scan.
  - intros k. by apply first_pages_take.
  - intros k. rewrite (first_pages_take _ _ uid) by done.
    eapply sublist_NoDup; [exact Hnodup|apply sublist_take].
  - intros k Hall. rewrite (first_pages_take _ _ uid) by done. by apply take_ge.
  - intros page Hpage Hpast.
    assert (((page - 1) * size ≤ BIGINT_MAX)%Z →
            Postgres.get_user_orders current_user page size status db
            = (respond_ok (DataOrders [] (Z.of_nat (length filtered)) page size), db))
      as Hempty.
    { intros Hoffset.
      rewrite (Postgres_get_user_orders_page _ _ _ _ _ _ Hid Hstatus) by nia.
      fold filtered. rewrite drop_ge by lia. rewrite take_nil.
      unfold filtered. by rewrite (Permutation_length (order_by_created_at_desc_perm _)). }
    split; [|exact Hempty].
    destruct (Z_le_dec ((page - 1) * size) BIGINT_MAX) as [Hoffset|Hoffset].
    + by rewrite (Hempty Hoffset).
    + rewrite (Postgres_get_user_orders_refused _ _ _ _ _ _ Hid); [reflexivity|].
      right; right. unfold in_bigint. apply andb_false_iff. right. apply Z.leb_gt. lia.
Qed.

Lemma pages_follow_one_another_witness :
  claim_user_id alice = Some 7%N
  ∧ (1 ≤ 3 ≤ BIGINT_MAX)%Z
  ∧ passable None = true
  ∧ (row_count sample_store ≤ BIGINT_MAX)%Z
  ∧ NoDup (first_pages alice 3 None sample_store 2).
Proof.
  split; [reflexivity|]. split; [unfold BIGINT_MAX; lia|]. split; [reflexivity|].
  split; [by vm_compute|].
  destruct (pages_follow_one_another sample_store alice 7%N 3 None)
    as (filtered & _ & _ & Hnodup & _);
    [reflexivity|unfold BIGINT_MAX; lia|reflexivity|by vm_compute|].
  apply Hnodup.
Defined.

(** ** A new order in the listings *)

Lemma scan_insert conds (db : gmap N OrderRow) (order_id : N) (row : OrderRow) :
  db !! order_id = None →
  scan conds (<[order_id := row]> db)
  ≡ₚ if where_ conds (order_id, row)
     then (order_id, row) :: scan conds db
     else scan conds db.
Proof.
  intros Hkey. unfold scan. rewrite (map_to_list_insert _ _ _ Hkey), filter_cons.
  destruct (where_ conds (order_id, row)) eqn:Hwhere.
  - by rewrite decide_True by exact I.
  - by rewrite decide_False by (intros []).
Qed.

(** X12: when [POST /v1/orders] answers with success, the new order adds
    exactly one to the total of every listing it belongs to (the creator's
    and every admin's, without status filter or filtered on created) and
    leaves the total of every other listing as it was; a listing that was
    refused before is refused after. *)
Theorem created_order_counts_once (db : gmap N OrderRow) (body : OrderCreate)
    (current_user : TokenPayload) (uid : N) (uuid4 : N) (now : Z)
    (viewer : TokenPayload) (vid : N) (page size : Z) (status : option string) :
  let created := POST_v1_orders body current_user uuid4 now db in
  let before :=
    returned_total (Postgres.get_user_orders viewer page size status db).1 in
  let after :=
    returned_total (Postgres.get_user_orders viewer page size status created.2).1 in
  let listed :=
    (claim_role viewer = Some "admin" ∨ vid = uid)
    ∧ (status = None ∨ status = Some "" ∨ status = Some "created") in
  claim_user_id current_user = Some uid →
  claim_user_id viewer = Some vid →
  created.1 = Json (respond_ok (DataOrderId uuid4)) →
  (∀ total, before = Some total →
     (listed → after = Some (total + 1)%Z) ∧ (¬ listed → after = Some total))
  ∧ (before = None → after = None).
Proof.
  intros created before after listed Hid Hvid Hcreated.
  subst created before after listed.
  destruct (POST_v1_orders_created db body current_user uuid4 now)
    as (uid' & Hid' & _ & Hkey & Hpost); [by rewrite Hcreated|].
  assert (uid' = uid) as -> by congruence.
  rewrite Hpost. cbn [snd].
  destruct (Postgres_get_user_orders_result db viewer page size status)
    as [Hrefused|(vid' & Hvid' & Hstatus & Hsize & Hoffset & Hpage)].
  { rewrite Hrefused. cbn [fst returned_total data respond_error].
    split; [discriminate|]. intros _.
    destruct (Postgres_get_user_orders_result (<[uuid4 := new_order uid body now]> db)
                viewer page size status)
      as [->|(vid' & Hvid' & Hstatus & Hsize & Hoffset & _)]; [reflexivity|].
    rewrite (Postgres_get_user_orders_page _ _ _ _ _ _ Hvid') in Hrefused by done.
    discriminate. }
  assert (vid' = vid) as -> by congruence.
  rewrite Hpage, (Postgres_get_user_orders_page _ _ _ _ _ _ Hvid) by done.
  cbn [fst returned_total data respond_ok].
  split; [|discriminate]. intros total [= <-].
  pose proof (scan_insert (listing_conds viewer vid status) db uuid4
                (new_order uid body now) Hkey) as Hscan.
  pose proof (where_listing_conds viewer vid status (uuid4, new_order uid body now))
    as Hwhere.
  unfold visible in Hwhere. cbn [snd new_order o_user_id o_status] in Hwhere.
  assert ((claim_role viewer = Some "admin" ∨ vid = uid)
          ∧ (status = None ∨ status = Some "" ∨ status = Some "created")
          ↔ where_ (listing_conds viewer vid status) (uuid4, new_order uid body now) = true)
    as Hlisted.
  { rewrite <- Is_true_true, Hwhere. intuition congruence. }
  destruct (where_ (listing_conds viewer vid status) (uuid4, new_order uid body now)).
  - split; [|tauto]. intros _.
    rewrite (Permutation_length Hscan). simpl. f_equal. lia.
  - split; [intros Hyes; apply Hlisted in Hyes; discriminate|].
    intros _. by rewrite (Permutation_length Hscan).
Qed.

Lemma created_order_counts_once_witness :
  claim_user_id alice = Some 7%N
  ∧ claim_user_id bob = Some 8%N
  ∧ (POST_v1_orders two_widgets alice 20%N 200 sample_store).1
    = Json (respond_ok (DataOrderId 20%N))
  ∧ returned_total (Postgres.get_user_orders bob 1 10 None sample_store).1 = Some 0%Z
  ∧ returned_total
      (Postgres.get_user_orders bob 1 10 None
         (POST_v1_orders two_widgets alice 20%N 200 sample_store).2).1
    = Some 0%Z.
Proof.
  split; [reflexivity|]. split; [reflexivity|]. split; [reflexivity|].
  split; [reflexivity|].
  destruct (created_order_counts_once sample_store two_widgets alice 7%N 20%N 200
              bob 8%N 1 10 None) as [Htotal _];
    [reflexivity|reflexivity|reflexivity|].
  destruct (Htotal 0%Z) as [_ Hafter]; [reflexivity|].
  apply Hafter. intros [[Hadmin|Hsame] _]; discriminate.
Defined.

(** ** What the validation of a new order lets through *)

Lemma validate_price_accepts (v : spec_float) :
  validate_price v = None ↔ SFleb (S754_zero false) v = true ∨ v = S754_nan.
Proof.
  unfold validate_price, SFleb, SFltb.
  destruct v as [s|s| |s m e]; try destruct s; simpl; intuition congruence.
Qed.

Lemma validate_total_amount_accepts (v : spec_float) :
  validate_total_amount v = None ↔ SFltb (S754_zero false) v = true ∨ v = S754_nan.
Proof.
  unfold validate_total_amount, SFleb, SFltb.
  destruct v as [s|s| |s m e]; try destruct s; simpl; intuition congruence.
Qed.

Lemma validate_quantity_accepts (v : Z) : validate_quantity v = None ↔ (0 < v)%Z.
Proof.
  unfold validate_quantity. destruct (Z.leb_spec v 0); split; (congruence || lia).
Qed.

Lemma OrderItem_errors_accepts (item : OrderItem) :
  OrderItem_errors item = []
  ↔ (0 < quantity item)%Z
    ∧ (SFleb (S754_zero false) (price item) = true ∨ price item = S754_nan).
Proof.
  rewrite <- validate_quantity_accepts, <- validate_price_accepts.
  unfold OrderItem_errors.
  destruct (validate_quantity (quantity item)), (validate_price (price item));
    simpl; intuition congruence.
Qed.

(** X13: the body of [POST /v1/orders] passes validation exactly when every
    item has quantity > 0 and a price that is >= 0 or not a number, and the
    total is > 0 or not a number: the comparisons of the validators are
    false on NaN, so NaN prices and totals go through, as does a body with
    no items. *)
Theorem OrderCreate_accepts_exactly (body : OrderCreate) :
  OrderCreate_errors body = []
  ↔ (∀ item, item ∈ oc_items body →
       (0 < quantity item)%Z
       ∧ (SFleb (S754_zero false) (price item) = true ∨ price item = S754_nan))
    ∧ (SFltb (S754_zero false) (total_amount body) = true
       ∨ total_amount body = S754_nan).
Proof.
  unfold OrderCreate_errors.
  rewrite <- validate_total_amount_accepts.
  assert (concat (OrderItem_errors <$> oc_items body) = []
          ↔ ∀ item, item ∈ oc_items body →
              (0 < quantity item)%Z
              ∧ (SFleb (S754_zero false) (price item) = true ∨ price item = S754_nan))
    as <-.
  { induction (oc_items body) as [|item items IH].
    - split; [intros _ item Hin; by apply elem_of_nil in Hin|reflexivity].
    - rewrite fmap_cons. simpl. split.
      + intros Hnil. apply app_eq_nil in Hnil as [Hitem Hrest].
        intros item' Hin. apply elem_of_cons in Hin as [->|Hin].
        * by apply OrderItem_errors_accepts.
        * by apply IH.
      + intros Hall.
        rewrite (proj2 (OrderItem_errors_accepts item))
          by (apply Hall, list_elem_of_here).
        apply IH. intros item' Hin. by apply Hall, list_elem_of_further. }
  destruct (validate_total_amount (total_amount body)); simpl.
  - split; [intros Hnil; by apply app_eq_nil in Hnil as [_ ?]|intros [_ ?]; congruence].
  - rewrite app_nil_r. tauto.
Qed.

(** ** The size of a page *)

Lemma returned_orders_length (db : gmap N OrderRow) current_user page size status :
  (0 ≤ size)%Z →
  (Z.of_nat (length (returned_orders
                       (get_user_orders current_user page size status db).1)) ≤ size)%Z.
Proof.
  intros Hsize.
  destruct (claim_user_id current_user) as [uid|] eqn:Hid;
    [|rewrite get_user_orders_bad_token by done; simpl; lia].
  destruct (Z_lt_dec ((page - 1) * size) 0) as [Hneg|Hpos].
  - rewrite (get_user_orders_bad_range _ _ _ _ _ _ Hid) by auto. simpl. lia.
  - rewrite (get_user_orders_page _ _ _ _ _ _ Hid) by lia.
    cbn [fst returned_orders data respond_ok]. rewrite length_take. lia.
Qed.

(** X24: whatever the query parameters, a listing that [GET /v1/orders]
    answers holds at most 100 orders, at most the requested [size] when one
    is given and at most 10 when none is, and the store is as before. *)
Theorem listing_is_bounded (db db' : gmap N OrderRow) (current_user : TokenPayload)
    (page size : option Z) (status : option string) (r : BaseResponse) :
  GET_v1_orders current_user page size status db = (Json r, db') →
  (length (returned_orders r) ≤ 100)%nat
  ∧ (Z.of_nat (length (returned_orders r)) ≤ default 10%Z size)%Z
  ∧ db' = db.
Proof.
  unfold GET_v1_orders.
  destruct (Query "page" 1 (Some 1%Z) None page) as [?|p] eqn:Hp;
    [destruct (Query "size" 10 (Some 1%Z) (Some 100%Z) size); discriminate|].
  destruct (Query "size" 10 (Some 1%Z) (Some 100%Z) size) as [?|s] eqn:Hs;
    [discriminate|].
  assert ((1 ≤ s ≤ 100)%Z ∧ s = default 10%Z size) as [Hrange Hdefault].
  { unfold Query in Hs. destruct size as [v|]; simpl; [|injection Hs as <-; lia].
    destruct (Z.ltb_spec v 1); [discriminate|].
    destruct (Z.ltb_spec 100 v); [discriminate|]. injection Hs as <-. lia. }
  pose proof (returned_orders_length db current_user p s status) as Hlen.
  pose proof (get_user_orders_store db current_user p s status) as Hstore.
  destruct (get_user_orders current_user p s status db) as [r0 db0].
  cbn [fst snd] in Hlen, Hstore. intros [= <- <-].
  split; [lia|]. split; [lia|exact Hstore].
Qed.

Lemma listing_is_bounded_witness :
  ∃ r, GET_v1_orders alice None None None sample_store = (Json r, sample_store)
    ∧ (length (returned_orders r) ≤ 100)%nat.
Proof.
  eexists. split; [reflexivity|].
  eapply (listing_is_bounded sample_store sample_store alice None None None).
  reflexivity.
Defined.

(** * Properties of the users service *)

(** ** The e-mail pattern *)

Lemma append_String (c : ascii) (a b : string) : String c a +:+ b = String c (a +:+ b).
Proof. reflexivity. Qed.

Lemma append_empty (a : string) : "" +:+ a = a.
Proof. reflexivity. Qed.

Lemma append_assoc (a b c : string) : (a +:+ b) +:+ c = a +:+ b +:+ c.
Proof.
  induction a as [|x a IH]; [reflexivity|].
  rewrite !append_String. by rewrite IH.
Qed.

Lemma occurrences_append (c : ascii) (a b : string) :
  occurrences c (a +:+ b) = occurrences c a + occurrences c b.
Proof.
  induction a as [|x a IH]; [reflexivity|].
  rewrite append_String. simpl. rewrite IH. lia.
Qed.

Lemma occurrences_outside (set : list SetItem) (c : ascii) (s : string) :
  in_set set c = false → all_in set s = true → occurrences c s = 0.
Proof.
  intros Hout. induction s as [|x s IH]; [reflexivity|]. simpl.
  intros [Hx Hs]%andb_true_iff. rewrite (IH Hs).
  destruct (Ascii.eqb_spec x c) as [->|_]; [congruence|reflexivity].
Qed.

Lemma any_number_spec (set : list SetItem) (s r : string) :
  r ∈ any_number set s ↔ ∃ p, s = p +:+ r ∧ all_in set p = true.
Proof.
  revert r. induction s as [|c s IH]; intros r.
  - simpl. rewrite list_elem_of_singleton. split.
    + intros ->. by exists "".
    + intros ([|x p] & Heq & _); [by rewrite append_empty in Heq|discriminate].
  - cbn [any_number]. rewrite elem_of_cons. split.
    + intros [->|Hin]; [by exists ""|].
      destruct (in_set set c) eqn:Hc; [|by apply elem_of_nil in Hin].
      apply IH in Hin as (p & -> & Hp). exists (String c p).
      split; [reflexivity|]. simpl. by rewrite Hc, Hp.
    + intros ([|x p] & Heq & Hp).
      * left. by rewrite append_empty in Heq.
      * right. rewrite append_String in Heq. injection Heq as -> ->.
        simpl in Hp. apply andb_true_iff in Hp as [Hx Hp]. rewrite Hx.
        apply IH. eauto.
Qed.

Lemma at_least_spec (min : nat) (set : list SetItem) (s r : string) :
  r ∈ at_least min set s
  ↔ ∃ p, s = p +:+ r ∧ all_in set p = true ∧ (min ≤ String.length p)%nat.
Proof.
  revert s. induction min as [|min IH]; intros s.
  - cbn [at_least]. rewrite any_number_spec. split.
    + intros (p & ? & ?). exists p. auto with lia.
    + intros (p & ? & ? & _). eauto.
  - cbn [at_least]. destruct s as [|c s].
    + rewrite elem_of_nil. split; [done|].
      intros ([|x p] & Heq & _ & Hlen); [simpl in Hlen; lia|discriminate].
    + destruct (in_set set c) eqn:Hc.
      * rewrite IH. split.
        -- intros (p & -> & Hp & Hlen). exists (String c p).
           split; [reflexivity|]. simpl. rewrite Hc, Hp. auto with lia.
        -- intros ([|x p] & Heq & Hp & Hlen); [simpl in Hlen; lia|].
           rewrite append_String in Heq. injection Heq as -> ->.
           simpl in Hp, Hlen. apply andb_true_iff in Hp as [_ Hp].
           exists p. auto with lia.
      * rewrite elem_of_nil. split; [done|].
        intros ([|x p] & Heq & Hp & Hlen); [simpl in Hlen; lia|].
        rewrite append_String in Heq. injection Heq as -> ->.
        simpl in Hp. rewrite Hc in Hp. discriminate.
Qed.

Lemma matches_cons (whole : string) (t : Token) (pattern : list Token) (s : string) :
  matches whole (t :: pattern) s = true
  ↔ ∃ r, r ∈ after whole t s ∧ matches whole pattern r = true.
Proof.
  cbn [matches]. rewrite existsb_exists.
  split; intros (r & Hin & Hr); exists r; by rewrite ?list_elem_of_In in *.
Qed.

Lemma after_literal (whole : string) (c : ascii) (s r : string) :
  r ∈ after whole (Literal c) s ↔ s = String c r.
Proof.
  simpl. destruct s as [|x s]; [rewrite elem_of_nil; split; [done|discriminate]|].
  destruct (Ascii.eqb_spec x c) as [->|Hne].
  - rewrite list_elem_of_singleton. split; [by intros ->|by intros [= ->]].
  - rewrite elem_of_nil. split; [done|]. intros [= ? ?]. congruence.
Qed.

Lemma after_dollar (whole : string) (s r : string) :
  r ∈ after whole Dollar s ↔ r = s ∧ (s = "" ∨ s = newline).
Proof.
  simpl. destruct (String.eqb_spec s "") as [->|Hempty]; simpl.
  - rewrite list_elem_of_singleton. tauto.
  - destruct (String.eqb_spec s newline) as [->|Hnl].
    + rewrite list_elem_of_singleton. tauto.
    + rewrite elem_of_nil. tauto.
Qed.

Lemma email_pattern_spec (v : string) :
  re_match EMAIL_PATTERN v = true
  ↔ ∃ local domain tld tail : string,
      v = local +:+ String "@" (domain +:+ String "." (tld +:+ tail))
      ∧ all_in local_set local = true ∧ (1 ≤ String.length local)%nat
      ∧ all_in domain_set domain = true ∧ (1 ≤ String.length domain)%nat
      ∧ all_in letter_set tld = true ∧ (2 ≤ String.length tld)%nat
      ∧ (tail = "" ∨ tail = newline).
Proof.
  unfold re_match, EMAIL_PATTERN. rewrite matches_cons. split.
  - intros (r0 & Hcaret & Hrest). simpl in Hcaret. rewrite String.eqb_refl in Hcaret.
    apply list_elem_of_singleton in Hcaret as ->.
    apply matches_cons in Hrest as (r1 & (local & Hv & Hlocal & Hllen)%at_least_spec & Hrest).
    apply matches_cons in Hrest as (r2 & ->%after_literal & Hrest).
    apply matches_cons in Hrest
      as (r3 & (domain & -> & Hdomain & Hdlen)%at_least_spec & Hrest).
    apply matches_cons in Hrest as (r4 & ->%after_literal & Hrest).
    apply matches_cons in Hrest as (r5 & (tld & -> & Htld & Htlen)%at_least_spec & Hrest).
    apply matches_cons in Hrest as (r6 & [-> Htail]%after_dollar & _).
    exists local, domain, tld, r5. auto 10.
  - intros (local & domain & tld & tail & Hv & Hlocal & Hllen & Hdomain & Hdlen
            & Htld & Htlen & Htail).
    exists v. split; [simpl; rewrite String.eqb_refl; apply list_elem_of_here|].
    apply matches_cons. exists (String "@" (domain +:+ String "." (tld +:+ tail))).
    split; [apply at_least_spec; eauto|].
    apply matches_cons. exists (domain +:+ String "." (tld +:+ tail)).
    split; [by apply after_literal|].
    apply matches_cons. exists (String "." (tld +:+ tail)).
    split; [apply at_least_spec; eauto|].
    apply matches_cons. exists (tld +:+ tail).
    split; [by apply after_literal|].
    apply matches_cons. exists tail.
    split; [apply at_least_spec; eauto|].
    apply matches_cons. exists tail. split; [by apply after_dollar|reflexivity].
Qed.

(** X14: the addresses that [validate_email] lets through are exactly the
    strings of the form local [@] domain [.] tld, possibly followed by one
    newline as the very last character: local is one or more characters out
    of letters, digits and [._%+-], domain one or more out of letters,
    digits and [.-], tld two or more letters. *)
Theorem validate_email_accepts (v : string) :
  validate_email v = None
  ↔ ∃ local domain tld tail : string,
      v = local +:+ String "@" (domain +:+ String "." (tld +:+ tail))
      ∧ all_in local_set local = true ∧ (1 ≤ String.length local)%nat
      ∧ all_in domain_set domain = true ∧ (1 ≤ String.length domain)%nat
      ∧ all_in letter_set tld = true ∧ (2 ≤ String.length tld)%nat
      ∧ (tail = "" ∨ tail = newline).
Proof.
  rewrite <- email_pattern_spec. unfold validate_email.
  destruct (re_match EMAIL_PATTERN v); simpl; intuition congruence.
Qed.

(** X15: an address that [validate_email] lets through has exactly one
    [@], and no blank. *)
Theorem accepted_email_has_one_at (v : string) :
  validate_email v = None →
  occurrences "@" v = 1 ∧ occurrences " " v = 0.
Proof.
  intros Hok.
  assert (re_match EMAIL_PATTERN v = true) as Hmatch
    by (unfold validate_email in Hok; by destruct (re_match EMAIL_PATTERN v)).
  apply email_pattern_spec in Hmatch
    as (local & domain & tld & tail & -> & Hlocal & _ & Hdomain & _ & Htld & _ & Htail).
  assert (∀ c, in_set local_set c = false → in_set domain_set c = false →
               in_set letter_set c = false → occurrences c tail = 0 →
               occurrences c (local +:+ String "@" (domain +:+ String "." (tld +:+ tail)))
               = (if Ascii.eqb "@" c then 1 else 0) + (if Ascii.eqb "." c then 1 else 0))
    as Hcount.
  { intros c Hl Hd Ht Htl.
    rewrite occurrences_append. cbn [occurrences].
    rewrite occurrences_append. cbn [occurrences].
    rewrite occurrences_append.
    rewrite (occurrences_outside _ _ _ Hl Hlocal), (occurrences_outside _ _ _ Hd Hdomain),
      (occurrences_outside _ _ _ Ht Htld), Htl. lia. }
  split; apply Hcount; try reflexivity; by destruct Htail as [->| ->].
Qed.

Lemma accepted_email_has_one_at_witness :
  validate_email "ann.lee@example.org" = None
  ∧ occurrences "@" "ann.lee@example.org" = 1.
Proof.
  split; [reflexivity|].
  apply (accepted_email_has_one_at "ann.lee@example.org"). reflexivity.
Defined.

(** X16: the [$] of the pattern also holds just before a final newline: an
    address without newline that passes [validate_email] still passes with
    a newline put after it. *)
Theorem trailing_newline_passes (v : string) :
  validate_email v = None →
  occurrences "010" v = 0 →
  validate_email (v +:+ newline) = None.
Proof.
  intros Hok Hnone.
  assert (re_match EMAIL_PATTERN v = true) as Hmatch
    by (unfold validate_email in Hok; by destruct (re_match EMAIL_PATTERN v)).
  apply email_pattern_spec in Hmatch
    as (local & domain & tld & tail & -> & Hlocal & Hllen & Hdomain & Hdlen
        & Htld & Htlen & Htail).
  assert (∀ w, re_match EMAIL_PATTERN w = true → validate_email w = None) as Hpass
    by (intros w Hw; unfold validate_email; by rewrite Hw).
  destruct Htail as [->| ->].
  - apply Hpass, email_pattern_spec. exists local, domain, tld, newline.
    split; [|auto 10].
    rewrite append_assoc, append_String. f_equal. f_equal.
    rewrite append_assoc, append_String. f_equal. f_equal.
    by rewrite append_assoc.
  - rewrite occurrences_append in Hnone. cbn [occurrences] in Hnone.
    rewrite occurrences_append in Hnone. cbn [occurrences] in Hnone.
    rewrite occurrences_append in Hnone. simpl in Hnone. lia.
Qed.

Lemma trailing_newline_passes_witness :
  validate_email "ann@example.org" = None
  ∧ occurrences "010" "ann@example.org" = 0
  ∧ validate_email ("ann@example.org" +:+ newline) = None.
Proof.
  split; [reflexivity|]. split; [reflexivity|].
  apply (trailing_newline_passes "ann@example.org"); reflexivity.
Defined.

(** ** The handlers of the users service *)

Create HintDb users_handlers.

#[global] Hint Unfold Users.register Users.register_body Users.login Users.login_body
  Users.get_profile Users.get_profile_body Users.update_profile
  Users.update_profile_body Users.bind Users.ret Users.raise Users.select_by_email
  Users.insert_user Users.update_user Users.commit Users.rollback Users.close
  Users.get_db Users.get_password_hash Users.verify_password Users.token_sub
  : users_handlers.

Ltac enter_users_handler := autounfold with users_handlers; simpl.

Lemma find_email_None (table : list Users.UserRow) (email : string) :
  find (fun u => bool_decide (Users.u_email u = email)) table = None
  ↔ ∀ u, u ∈ table → Users.u_email u ≠ email.
Proof.
  induction table as [|x table IH]; simpl.
  - split; [intros _ u Hu; by apply elem_of_nil in Hu|reflexivity].
  - case_bool_decide as Hx.
    + split; [discriminate|]. intros Hall. destruct (Hall x); [apply list_elem_of_here|done].
    + rewrite IH. split.
      * intros Hall u [->|Hu]%elem_of_cons; auto.
      * intros Hall u Hu. apply Hall. by apply list_elem_of_further.
Qed.

Lemma find_email_Some (table : list Users.UserRow) (email : string) (u : Users.UserRow) :
  find (fun u => bool_decide (Users.u_email u = email)) table = Some u →
  u ∈ table ∧ Users.u_email u = email.
Proof.
  intros Hfind. apply find_some in Hfind as [Hin Hu].
  split; [by apply list_elem_of_In|]. by apply bool_decide_eq_true in Hu.
Qed.

Lemma find_email_unique (table : list Users.UserRow) (u : Users.UserRow) :
  NoDup (Users.u_email <$> table) → u ∈ table →
  find (fun x => bool_decide (Users.u_email x = Users.u_email u)) table = Some u.
Proof.
  induction table as [|x table IH]; intros Hnodup Hu; [by apply elem_of_nil in Hu|].
  rewrite fmap_cons in Hnodup. apply NoDup_cons in Hnodup as [Hx Hnodup]. simpl.
  apply elem_of_cons in Hu as [->|Hu].
  - by rewrite bool_decide_eq_true_2.
  - rewrite bool_decide_eq_false_2; [by apply IH|].
    intros Heq. apply Hx. rewrite Heq. by apply list_elem_of_fmap_2.
Qed.

Lemma find_past {A} (p : A → bool) (l l' : list A) :
  find p l = None → find p (l ++ l') = find p l'.
Proof.
  induction l as [|x l IH]; [reflexivity|]. simpl.
  destruct (p x); [discriminate|exact IH].
Qed.

Section users_properties.
Context (bcrypt_hashpw : string → string → option string)
        (bcrypt_checkpw : string → string → option bool)
        (jwt_encode : Users.Claims → string).

Lemma register_taken (table : list Users.UserRow) user_data uuid4 salt created_at
    updated_at :
  (∃ u, u ∈ table ∧ Users.u_email u = Users.uc_email user_data) →
  Users.register bcrypt_hashpw user_data uuid4 salt created_at updated_at table
  = (Users.failed "USER_EXISTS" (Users.Plain "User with this email already exists"),
     table).
Proof.
  intros (u & Hu & Hemail). enter_users_handler.
  destruct (find _ table) as [existing|] eqn:Hfind; [reflexivity|].
  by destruct (proj1 (find_email_None _ _) Hfind u).
Qed.

Lemma register_new (table : list Users.UserRow) user_data uuid4 salt created_at
    updated_at :
  (∀ u, u ∈ table → Users.u_email u ≠ Users.uc_email user_data) →
  Users.register bcrypt_hashpw user_data uuid4 salt created_at updated_at table
  = match bcrypt_hashpw (Users.uc_password user_data) salt with
    | Some hashed_password =>
        if has_nul (Users.uc_email user_data) || has_nul hashed_password
           || has_nul (Users.uc_name user_data)
        then (Users.failed "DATABASE_ERROR"
                (Users.WithException "Registration failed: " Users.NulInParameter),
              table)
        else (Users.succeeded (Users.DataUserId uuid4),
              table ++ [ {| Users.u_id := uuid4;
                            Users.u_email := Users.uc_email user_data;
                            Users.u_password_hash := hashed_password;
                            Users.u_name := Users.uc_name user_data;
                            Users.u_roles := "client";
                            Users.u_created_at := created_at;
                            Users.u_updated_at := updated_at |} ])
    | None =>
        (Users.failed "DATABASE_ERROR"
           (Users.WithException "Registration failed: " Users.BcryptError), table)
    end.
Proof.
  intros Hnew. enter_users_handler.
  rewrite (proj2 (find_email_None table _) Hnew). simpl.
  destruct (bcrypt_hashpw (Users.uc_password user_data) salt); simpl; [|reflexivity].
  rewrite orb_false_r.
  by destruct (has_nul (Users.uc_email user_data) || has_nul s
               || has_nul (Users.uc_name user_data)).
Qed.

(** X17: [register] refuses an address that some user already has and
    writes nothing. For a new address, either it answers with the generated
    id and the table has exactly one row more, with that id, the address,
    the name and the hash of the request and the role client, whatever the
    request holds, or it answers [DATABASE_ERROR] and writes nothing; the
    latter when hashing raises and when the name holds NUL. So it never
    gives an address a second account and never a role other than client. *)
Theorem register_adds_one_client (table : list Users.UserRow)
    (user_data : Users.UserCreate) (uuid4 : N) (salt : string)
    (created_at updated_at : Z) :
  let result :=
    Users.register bcrypt_hashpw user_data uuid4 salt created_at updated_at table in
  let refused e :=
    result = (Users.failed "DATABASE_ERROR"
                (Users.WithException "Registration failed: " e), table) in
  ((∃ u, u ∈ table ∧ Users.u_email u = Users.uc_email user_data) →
   result = (Users.failed "USER_EXISTS" (Users.Plain "User with this email already exists"),
             table))
  ∧ ((∀ u, u ∈ table → Users.u_email u ≠ Users.uc_email user_data) →
     ((∃ hashed_password,
         bcrypt_hashpw (Users.uc_password user_data) salt = Some hashed_password
         ∧ result.1 = Users.succeeded (Users.DataUserId uuid4)
         ∧ result.2 ≡ₚ {| Users.u_id := uuid4;
                          Users.u_email := Users.uc_email user_data;
                          Users.u_password_hash := hashed_password;
                          Users.u_name := Users.uc_name user_data;
                          Users.u_roles := "client";
                          Users.u_created_at := created_at;
                          Users.u_updated_at := updated_at |} :: table)
      ∨ ∃ e, refused e)
     ∧ (bcrypt_hashpw (Users.uc_password user_data) salt = None →
        refused Users.BcryptError)
     ∧ (has_nul (Users.uc_name user_data) = true → ∃ e, refused e))
  ∧ (NoDup (Users.u_email <$> table) → NoDup (Users.u_email <$> result.2))
  ∧ (∀ u, u ∈ result.2 → u ∈ table ∨ Users.u_roles u = "client").
Proof.
  intros result refused. subst result refused.
  destruct (find (fun u => bool_decide (Users.u_email u = Users.uc_email user_data))
              table) as [existing|] eqn:Hfind.
  - apply find_email_Some in Hfind as [Hin Hemail].
    assert (∃ u, u ∈ table ∧ Users.u_email u = Users.uc_email user_data) as Htaken
      by eauto.
    rewrite (register_taken _ _ _ _ _ _ Htaken). cbn [snd].
    split; [reflexivity|]. split; [intros Hnone; by destruct (Hnone existing)|].
    split; [done|auto].
  - pose proof (proj1 (find_email_None _ _) Hfind) as Hnone.
    rewrite (register_new _ _ _ _ _ _ Hnone).
    split; [intros (u & Hu & Hemail); by destruct (Hnone u)|].
    destruct (bcrypt_hashpw (Users.uc_password user_data) salt) as [h|];
      [|cbn [snd]; split; [intros _; split; [right; eauto|]; split;
                            [reflexivity|eauto]|]; split; [done|auto]].
    destruct (has_nul (Users.uc_email user_data) || has_nul h
              || has_nul (Users.uc_name user_data)) eqn:Hnul; cbn [fst snd].
    + split; [intros _; split; [right; eauto|]; split; [discriminate|eauto]|].
      split; [done|auto].
    + split; [|split].
      * intros _. split; [|split; [discriminate|]].
        -- left. exists h. split; [reflexivity|]. split; [reflexivity|].
           symmetry. apply Permutation_cons_append.
        -- intros Hname. rewrite Hname, orb_true_r in Hnul. discriminate.
      * intros Hnodup. rewrite fmap_app. apply NoDup_app. split; [exact Hnodup|].
        split; [|apply NoDup_singleton].
        intros e He. simpl. rewrite list_elem_of_singleton. intros ->.
        apply list_elem_of_fmap in He as (u & Heq & Hu). by destruct (Hnone u).
      * intros u [Hu|Hu]%elem_of_app; [by left|].
        apply list_elem_of_singleton in Hu as ->. by right.
Qed.

Lemma moved_rows (f : Users.UserRow → Users.UserRow) (id : N)
    (table : list Users.UserRow) :
  filter (fun u => Users.u_id u ≠ id) table
  ++ (f <$> filter (fun u => Users.u_id u = id) table)
  ≡ₚ (fun u => if bool_decide (Users.u_id u = id) then f u else u) <$> table.
Proof.
  induction table as [|x table IH]; [reflexivity|].
  rewrite !filter_cons, fmap_cons.
  destruct (decide (Users.u_id x = id)) as [Hx|Hx].
  - rewrite (bool_decide_eq_true_2 _ Hx), decide_False by auto.
    rewrite fmap_cons, <- Permutation_middle. by rewrite IH.
  - rewrite (bool_decide_eq_false_2 _ Hx), decide_True by auto.
    simpl. by rewrite IH.
Qed.

Lemma update_profile_found (table : list Users.UserRow) (user_update : Users.UserUpdate)
    (current_user : Users.Token) (now : Z) (email : string) (user : Users.UserRow) :
  Users.sub current_user = Some email →
  find (fun u => bool_decide (Users.u_email u = email)) table = Some user →
  Users.update_profile user_update current_user now table
  = let name := truthy (Users.uu_name user_update) in
    let new_email := truthy (Users.uu_email user_update) in
    let taken :=
      match new_email with
      | Some e =>
          bool_decide (e ≠ Users.u_email user)
          && bool_decide
               (is_Some (find (fun u => bool_decide (Users.u_email u = e)) table))
      | None => false
      end in
    if taken
    then (Users.failed "EMAIL_EXISTS" (Users.Plain "Email already in use"), table)
    else
      match name, new_email with
      | None, None =>
          (Users.succeeded (Users.DataMessage "Profile updated successfully"), table)
      | _, _ =>
          if has_nul (default "" name) || has_nul (default "" new_email)
          then (Users.failed "DATABASE_ERROR" (Users.Plain "Failed to update profile"),
                table)
          else (Users.succeeded (Users.DataMessage "Profile updated successfully"),
                filter (fun u => Users.u_id u ≠ Users.u_id user) table
                ++ (Users.updated name new_email now
                      <$> filter (fun u => Users.u_id u = Users.u_id user) table))
      end.
Proof.
  intros Hsub Hfind. enter_users_handler. rewrite Hsub. simpl. rewrite Hfind. simpl.
  destruct (truthy (Users.uu_email user_update)) as [e|]; simpl.
  - case_bool_decide; simpl.
    + destruct (find (fun u => bool_decide (Users.u_email u = e)) table); simpl.
      * reflexivity.
      * destruct (truthy (Users.uu_name user_update)) as [n|]; simpl.
        -- by destruct (has_nul n || has_nul e).
        -- by destruct (has_nul e).
    + destruct (truthy (Users.uu_name user_update)) as [n|]; simpl.
      * by destruct (has_nul n || has_nul e).
      * by destruct (has_nul e).
  - destruct (truthy (Users.uu_name user_update)) as [n|]; simpl; [|reflexivity].
    rewrite orb_false_r. by destruct (has_nul n).
Qed.

(** What [update_profile] leaves of the table: the table itself, or the
    rows of the caller rewritten and moved behind the others. *)
Lemma update_profile_table (table : list Users.UserRow) (user_update : Users.UserUpdate)
    (current_user : Users.Token) (now : Z) :
  (Users.update_profile user_update current_user now table).2 = table
  ∨ ∃ email user,
      Users.sub current_user = Some email
      ∧ find (fun u => bool_decide (Users.u_email u = email)) table = Some user
      ∧ (∀ e, truthy (Users.uu_email user_update) = Some e →
           e = Users.u_email user ∨ ∀ u, u ∈ table → Users.u_email u ≠ e)
      ∧ Users.update_profile user_update current_user now table
        = (Users.succeeded (Users.DataMessage "Profile updated successfully"),
           filter (fun u => Users.u_id u ≠ Users.u_id user) table
           ++ (Users.updated (truthy (Users.uu_name user_update))
                 (truthy (Users.uu_email user_update)) now
                 <$> filter (fun u => Users.u_id u = Users.u_id user) table)).
Proof.
  destruct (Users.sub current_user) as [email|] eqn:Hsub;
    [|left; enter_users_handler; by rewrite Hsub].
  destruct (find (fun u => bool_decide (Users.u_email u = email)) table)
    as [user|] eqn:Hfind;
    [|left; enter_users_handler; rewrite Hsub; simpl; by rewrite Hfind].
  rewrite (update_profile_found _ _ _ _ _ _ Hsub Hfind). cbv zeta.
  destruct (match truthy (Users.uu_email user_update) with
            | Some e =>
                bool_decide (e ≠ Users.u_email user)
                && bool_decide
                     (is_Some (find (fun u => bool_decide (Users.u_email u = e)) table))
            | None => false
            end) eqn:Htaken; [by left|].
  assert (∀ e, truthy (Users.uu_email user_update) = Some e →
            e = Users.u_email user ∨ ∀ u, u ∈ table → Users.u_email u ≠ e) as Hfree.
  { intros e He. rewrite He in Htaken.
    apply andb_false_iff in Htaken as [Hsame|Hfree].
    - left. apply bool_decide_eq_false in Hsame.
      by destruct (decide (e = Users.u_email user)).
    - right. apply find_email_None. apply bool_decide_eq_false in Hfree.
      destruct (find (fun u => bool_decide (Users.u_email u = e)) table);
        [destruct Hfree; eauto|reflexivity]. }
  destruct (truthy (Users.uu_name user_update)) as [n|],
    (truthy (Users.uu_email user_update)) as [e|]; cbn [default];
    try (by left);
    match goal with
    | |- context [if ?nul then _ else _] => destruct nul; [by left|]
    end;
    right; exists email, user; auto.
Qed.

(** X18: [update_profile] leaves the id, the password hash, the role and
    [created_at] of every row as they are, and the number of rows, whatever
    the request and the token: a profile update cannot raise a role or
    reach a password. The place of a row in the table is not kept: the
    updated row is found after the others. *)
Theorem update_profile_keeps_identity (table : list Users.UserRow)
    (user_update : Users.UserUpdate) (current_user : Users.Token) (now : Z) :
  Users.identity <$> (Users.update_profile user_update current_user now table).2
  ≡ₚ Users.identity <$> table.
Proof.
  destruct (update_profile_table table user_update current_user now)
    as [->|(email & user & _ & _ & _ & ->)]; [reflexivity|].
  cbn [snd]. rewrite moved_rows, <- list_fmap_compose.
  erewrite list_fmap_ext; [reflexivity|].
  intros i u _. simpl. by case_bool_decide.
Qed.

Lemma unique_by {B} (f : Users.UserRow → B) (table : list Users.UserRow) x y :
  NoDup (f <$> table) → x ∈ table → y ∈ table → f x = f y → x = y.
Proof.
  induction table as [|z table IH]; intros Hnodup Hx Hy Heq;
    [by apply elem_of_nil in Hx|].
  rewrite fmap_cons in Hnodup. apply NoDup_cons in Hnodup as [Hz Hnodup].
  apply elem_of_cons in Hx as [->|Hx]; apply elem_of_cons in Hy as [->|Hy].
  - reflexivity.
  - destruct Hz. rewrite Heq. by apply list_elem_of_fmap_2.
  - destruct Hz. rewrite <- Heq. by apply list_elem_of_fmap_2.
  - by apply IH.
Qed.

(** X19: when no two users share an id and no two an address, no two share
    an address after [update_profile], whatever the request and the token:
    a new address that another user has is refused with [EMAIL_EXISTS]. *)
Theorem update_profile_keeps_emails_unique (table : list Users.UserRow)
    (user_update : Users.UserUpdate) (current_user : Users.Token) (now : Z) :
  NoDup (Users.u_id <$> table) →
  NoDup (Users.u_email <$> table) →
  NoDup (Users.u_email
           <$> (Users.update_profile user_update current_user now table).2).
Proof.
  intros Hids Hnodup.
  destruct (update_profile_table table user_update current_user now)
    as [->|(email & user & _ & Hfind & Hfree & ->)]; [exact Hnodup|].
  cbn [snd]. rewrite moved_rows.
  apply find_email_Some in Hfind as [Huser _].
  rewrite <- list_fmap_compose.
  destruct (truthy (Users.uu_email user_update)) as [e|].
  - destruct (Hfree e eq_refl) as [He|He].
    + erewrite list_fmap_ext; [exact Hnodup|].
      intros i u Hu. cbn [compose]. case_bool_decide as Hid; [|reflexivity].
      cbn [Users.updated Users.u_email default]. rewrite He.
      apply list_elem_of_lookup_2 in Hu.
      by rewrite (unique_by Users.u_id table u user).
    + apply NoDup_fmap_2_strong; [|by apply NoDup_fmap_1 in Hnodup].
      intros x y Hx Hy. cbn [compose].
      destruct (decide (Users.u_id x = Users.u_id user)) as [Hxid|Hxid];
        destruct (decide (Users.u_id y = Users.u_id user)) as [Hyid|Hyid];
        rewrite ?(bool_decide_eq_true_2 _ Hxid), ?(bool_decide_eq_false_2 _ Hxid),
          ?(bool_decide_eq_true_2 _ Hyid), ?(bool_decide_eq_false_2 _ Hyid);
        cbn [Users.updated Users.u_email default]; intros Heq.
      * apply (unique_by Users.u_id table); [done..|congruence].
      * by destruct (He y).
      * by destruct (He x).
      * by apply (unique_by Users.u_email table).
  - erewrite list_fmap_ext; [exact Hnodup|].
    intros i u _. cbn [compose]. by case_bool_decide.
Qed.

(** X20: when the [sub] of the token is the address of no user (or the
    token has no [sub]), [get_profile] and [update_profile] answer
    [DATABASE_ERROR]: the 404 they raise is taken by their own
    [except Exception]. Nothing is written. *)
Theorem missing_user_is_a_database_error (table : list Users.UserRow)
    (current_user : Users.Token) (user_update : Users.UserUpdate) (now : Z) :
  (∀ email, Users.sub current_user = Some email →
     ∀ u, u ∈ table → Users.u_email u ≠ email) →
  Users.get_profile current_user table
  = (Users.failed "DATABASE_ERROR" (Users.Plain "Failed to get profile"), table)
  ∧ Users.update_profile user_update current_user now table
    = (Users.failed "DATABASE_ERROR" (Users.Plain "Failed to update profile"), table).
Proof.
  intros Hmissing. enter_users_handler.
  destruct (Users.sub current_user) as [email|]; [|split; reflexivity]. simpl.
  rewrite (proj2 (find_email_None table email)) by (by apply Hmissing).
  split; reflexivity.
Qed.

(** X21: [login] gives the same answer, [INVALID_CREDENTIALS] with the same
    message, for an address that no user has and for a wrong password of an
    address that a user has; the table is as before in both cases. *)
Theorem login_does_not_tell (table : list Users.UserRow)
    (login_data : Users.LoginRequest) (utcnow : Z) :
  (∀ u, find (fun u => bool_decide (Users.u_email u = Users.lr_email login_data)) table
        = Some u →
        bcrypt_checkpw (Users.lr_password login_data) (Users.u_password_hash u)
        = Some false) →
  Users.login bcrypt_checkpw jwt_encode login_data utcnow table
  = (Users.failed "INVALID_CREDENTIALS" (Users.Plain "Invalid email or password"), table).
Proof.
  intros Hwrong. enter_users_handler.
  destruct (find _ table) as [u|]; [|reflexivity]. simpl.
  rewrite (Hwrong u eq_refl). reflexivity.
Qed.

(** What a registration that answers with success has done. *)
Lemma register_succeeded (table : list Users.UserRow) user_data uuid4 salt created_at
    updated_at :
  Users.success
    (Users.register bcrypt_hashpw user_data uuid4 salt created_at updated_at table).1
  = true →
  (∀ u, u ∈ table → Users.u_email u ≠ Users.uc_email user_data)
  ∧ ∃ hashed_password,
      bcrypt_hashpw (Users.uc_password user_data) salt = Some hashed_password
      ∧ Users.register bcrypt_hashpw user_data uuid4 salt created_at updated_at table
        = (Users.succeeded (Users.DataUserId uuid4),
           table ++ [ {| Users.u_id := uuid4;
                         Users.u_email := Users.uc_email user_data;
                         Users.u_password_hash := hashed_password;
                         Users.u_name := Users.uc_name user_data;
                         Users.u_roles := "client";
                         Users.u_created_at := created_at;
                         Users.u_updated_at := updated_at |} ]).
Proof.
  destruct (find (fun u => bool_decide (Users.u_email u = Users.uc_email user_data))
              table) as [existing|] eqn:Hfind.
  - apply find_email_Some in Hfind as [Hin Hemail].
    rewrite register_taken by eauto. discriminate.
  - pose proof (proj1 (find_email_None _ _) Hfind) as Hnone.
    rewrite (register_new _ _ _ _ _ _ Hnone).
    destruct (bcrypt_hashpw (Users.uc_password user_data) salt) as [h|];
      [|discriminate].
    destruct (has_nul (Users.uc_email user_data) || has_nul h
              || has_nul (Users.uc_name user_data)); [discriminate|].
    intros _. split; [exact Hnone|]. by exists h.
Qed.

(** X22: a user whose registration has answered with success logs in with
    the same address and password (given that the hash [register] stored
    checks against the password): the address was new, and the answer of
    [login] carries the generated id and a bearer token whose claims are
    the address as [sub], that id, the role client, and an expiry 30
    minutes after the call. *)
Theorem registered_user_logs_in (table : list Users.UserRow)
    (user_data : Users.UserCreate) (uuid4 : N) (salt hashed_password : string)
    (created_at updated_at utcnow : Z) :
  let registered :=
    Users.register bcrypt_hashpw user_data uuid4 salt created_at updated_at table in
  bcrypt_hashpw (Users.uc_password user_data) salt = Some hashed_password →
  bcrypt_checkpw (Users.uc_password user_data) hashed_password = Some true →
  registered.1 = Users.succeeded (Users.DataUserId uuid4) →
  (∀ u, u ∈ table → Users.u_email u ≠ Users.uc_email user_data)
  ∧ (Users.login bcrypt_checkpw jwt_encode
       {| Users.lr_email := Users.uc_email user_data;
          Users.lr_password := Users.uc_password user_data |} utcnow registered.2).1
    = Users.succeeded
        (Users.DataLogin
           (jwt_encode {| Users.c_sub := Users.uc_email user_data;
                          Users.c_user_id := uuid4;
                          Users.c_role := "client";
                          Users.c_exp := (utcnow + 30 * 60 * 1000000)%Z |})
           "bearer" uuid4).
Proof.
  intros registered Hhash Hcheck Hregistered. subst registered.
  destruct (register_succeeded table user_data uuid4 salt created_at updated_at)
    as (Hnew & h & Hh & Hresult); [by rewrite Hregistered|].
  assert (h = hashed_password) as -> by congruence.
  rewrite Hresult. cbn [snd]. split; [exact Hnew|].
  enter_users_handler.
  rewrite find_past by (by apply find_email_None). simpl.
  rewrite bool_decide_eq_true_2 by reflexivity. simpl.
  rewrite Hcheck. reflexivity.
Qed.

(** X23: the profile routes find the user by the address in the token, not
    by the id: once a user has moved to a new address and someone else has
    registered the old one, both with success, the first user's token,
    which still names that old address, reads the profile of the new
    account. *)
Theorem old_token_reads_new_account (table : list Users.UserRow)
    (user : Users.UserRow) (current_user : Users.Token) (name : option string)
    (new_email : string) (now : Z) (newcomer : Users.UserCreate) (uuid4 : N)
    (salt : string) (created_at updated_at : Z) :
  let moved :=
    Users.update_profile {| Users.uu_name := name; Users.uu_email := Some new_email |}
      current_user now table in
  let registered :=
    Users.register bcrypt_hashpw newcomer uuid4 salt created_at updated_at moved.2 in
  NoDup (Users.u_email <$> table) →
  user ∈ table →
  Users.sub current_user = Some (Users.u_email user) →
  new_email ≠ "" →
  new_email ≠ Users.u_email user →
  Users.uc_email newcomer = Users.u_email user →
  moved.1 = Users.succeeded (Users.DataMessage "Profile updated successfully") →
  registered.1 = Users.succeeded (Users.DataUserId uuid4) →
  (Users.get_profile current_user registered.2).1
  = Users.succeeded
      (Users.DataUser
         {| Users.ur_id := uuid4; Users.ur_email := Users.u_email user;
            Users.ur_name := Users.uc_name newcomer; Users.ur_role := "client";
            Users.ur_created_at := created_at;
            Users.ur_updated_at := updated_at |}).
Proof.
  intros moved registered Hnodup Huser Hsub Hne Hother Hnewcomer Hmoved Hregistered.
  subst registered.
  destruct (register_succeeded moved.2 newcomer uuid4 salt created_at updated_at)
    as (Hgone & h & _ & ->); [by rewrite Hregistered|].
  cbn [snd]. enter_users_handler. rewrite Hsub. simpl.
  rewrite find_past by (apply find_email_None; by rewrite <- Hnewcomer). simpl.
  rewrite bool_decide_eq_true_2 by done. simpl. by rewrite Hnewcomer.
Qed.

End users_properties.

Lemma register_adds_one_client_witness :
  (∀ u, u ∈ sample_users → Users.u_email u ≠ "eve@example.org")
  ∧ (Users.register sample_hashpw
       {| Users.uc_email := "eve@example.org"; Users.uc_name := "Eve";
          Users.uc_password := "hunter2" |} 9%N "salt" 200 200 sample_users).1
    = Users.succeeded (Users.DataUserId 9%N).
Proof.
  assert (∀ u, u ∈ sample_users → Users.u_email u ≠ "eve@example.org") as Hnew.
  { intros u Hu. unfold sample_users in Hu. rewrite !elem_of_cons, elem_of_nil in Hu.
    destruct Hu as [->|[->|[]]]; discriminate. }
  split; [exact Hnew|].
  destruct (register_adds_one_client sample_hashpw sample_users
              {| Users.uc_email := "eve@example.org"; Users.uc_name := "Eve";
                 Users.uc_password := "hunter2" |} 9%N "salt" 200 200)
    as (_ & Hadds & _).
  destruct (Hadds Hnew) as [[(h & _ & Hanswer & _)|[e Hrefused]] _].
  - exact Hanswer.
  - discriminate Hrefused.
Defined.

Lemma update_profile_keeps_emails_unique_witness :
  NoDup (Users.u_id <$> sample_users)
  ∧ NoDup (Users.u_email <$> sample_users)
  ∧ NoDup (Users.u_email
             <$> (Users.update_profile
                    {| Users.uu_name := None; Users.uu_email := Some "ann@example.com" |}
                    ann_token 300 sample_users).2).
Proof.
  assert (NoDup (Users.u_id <$> sample_users)) as Hids
    by exact (bool_decide_unpack (NoDup (Users.u_id <$> sample_users)) I).
  assert (NoDup (Users.u_email <$> sample_users)) as Hemails
    by exact (bool_decide_unpack (NoDup (Users.u_email <$> sample_users)) I).
  split; [exact Hids|]. split; [exact Hemails|].
  apply (update_profile_keeps_emails_unique sample_users
           {| Users.uu_name := None; Users.uu_email := Some "ann@example.com" |}
           ann_token 300 Hids Hemails).
Defined.

Lemma missing_user_is_a_database_error_witness :
  Users.get_profile {| Users.sub := Some "eve@example.org" |}
    sample_users
  = (Users.failed "DATABASE_ERROR" (Users.Plain "Failed to get profile"), sample_users).
Proof.
  apply (missing_user_is_a_database_error sample_users
           {| Users.sub := Some "eve@example.org" |}
           {| Users.uu_name := None; Users.uu_email := None |} 300).
  intros email [= <-] u Hu.
  unfold sample_users in Hu. rewrite !elem_of_cons, elem_of_nil in Hu.
  destruct Hu as [->|[->|[]]]; discriminate.
Defined.

Lemma login_does_not_tell_witness :
  Users.login sample_checkpw sample_encode
    {| Users.lr_email := "ann@example.org"; Users.lr_password := "guess" |} 300
    sample_users
  = Users.login sample_checkpw sample_encode
      {| Users.lr_email := "eve@example.org"; Users.lr_password := "guess" |} 300
      sample_users.
Proof.
  rewrite (login_does_not_tell sample_checkpw sample_encode sample_users
             {| Users.lr_email := "ann@example.org"; Users.lr_password := "guess" |} 300).
  - rewrite (login_does_not_tell sample_checkpw sample_encode sample_users
               {| Users.lr_email := "eve@example.org"; Users.lr_password := "guess" |}
               300); [reflexivity|].
    intros u Hu. discriminate Hu.
  - intros u [= <-]. reflexivity.
Defined.

Lemma registered_user_logs_in_witness :
  (Users.login sample_checkpw sample_encode
     {| Users.lr_email := "eve@example.org"; Users.lr_password := "hunter2" |} 300
     (Users.register sample_hashpw
        {| Users.uc_email := "eve@example.org"; Users.uc_name := "Eve";
           Users.uc_password := "hunter2" |} 9%N "salt" 200 200 sample_users).2).1
  = Users.succeeded (Users.DataLogin "eve@example.org" "bearer" 9%N).
Proof.
  apply (registered_user_logs_in sample_hashpw sample_checkpw sample_encode sample_users
           {| Users.uc_email := "eve@example.org"; Users.uc_name := "Eve";
              Users.uc_password := "hunter2" |} 9%N "salt" "salthunter2" 200 200 300).
  - reflexivity.
  - reflexivity.
  - reflexivity.
Defined.

Lemma old_token_reads_new_account_witness :
  Users.ur_id
    <$> match Users.data
              (Users.get_profile ann_token
                 (Users.register sample_hashpw
                    {| Users.uc_email := "ann@example.org"; Users.uc_name := "Eve";
                       Users.uc_password := "hunter2" |} 9%N "salt" 400 400
                    (Users.update_profile
                       {| Users.uu_name := None;
                          Users.uu_email := Some "ann@example.com" |}
                       ann_token 300 sample_users).2).2).1 with
        | Some (Users.DataUser user) => Some user
        | _ => None
        end
  = Some 9%N.
Proof.
  rewrite (old_token_reads_new_account sample_hashpw sample_users ann ann_token None
             "ann@example.com" 300
             {| Users.uc_email := "ann@example.org"; Users.uc_name := "Eve";
                Users.uc_password := "hunter2" |} 9%N "salt" 400 400).
  - reflexivity.
  - exact (bool_decide_unpack (NoDup (Users.u_email <$> sample_users)) I).
  - unfold sample_users. apply list_elem_of_further, list_elem_of_here.
  - reflexivity.
  - discriminate.
  - discriminate.
  - reflexivity.
  - reflexivity.
  - reflexivity.
Defined.
